(** * The [Sorcerer] class of [src/dunder_methods.py]

    A shallow embedding of the class and of the part of the Python object
    model it relies on: instances and dictionaries are heap objects reached
    through references, so that sharing between a caller's dictionary and an
    instance's spell book is visible; exceptions are a result type; methods
    are state-passing functions over the heap. *)

From stdpp Require Import gmap strings pretty.
From Stdlib Require Import ZArith Ascii.
Local Open Scope Z_scope.

(** ** Runtime: references, exceptions, heap *)

Definition loc := positive.

(** The exceptions the class raises.  [ValueError] carries its message;
    [KeyError] the missing key; [AttributeError] the attribute name the
    message is built from.  [DanglingRef] is not a Python exception: it is
    the outcome of following a reference that the heap does not hold, which
    no Python program can produce. *)
Inductive exn : Type :=
| ValueError (msg : string)
| KeyError (key : string)
| AttributeError (attr : string)
| DanglingRef.

Inductive result (A : Type) : Type :=
| Ok (a : A)
| Raise (e : exn).
Arguments Ok {A} a.
Arguments Raise {A} e.

(** Values that flow through [Any]-typed parameters and attribute reads. *)
Inductive val : Type :=
| VNone
| VInt (z : Z)
| VStr (s : string)
| VDict (d : loc)
| VSorcerer (o : loc).

(** The state of one instance: the four attributes [__init__] sets, with the
    types of its annotations.  [spells] holds a reference to a dictionary. *)
Record Sorcerer : Type := mkSorcerer {
  name : string;
  level : Z;
  mana : Z;
  spells : loc
}.

Record heap : Type := Heap {
  objs : gmap loc Sorcerer;
  dicts : gmap loc (gmap string Z)
}.

Definition empty_heap : heap := Heap ∅ ∅.

(** ** State and exception monad

    An exception keeps the heap as it was when it was raised: Python does not
    roll back. *)
Definition M (A : Type) : Type := heap → result A * heap.

Definition ret {A} (a : A) : M A := λ h, (Ok a, h).

Definition raise {A} (e : exn) : M A := λ h, (Raise e, h).

Definition bind {A B} (m : M A) (k : A → M B) : M B :=
  λ h, match m h with
       | (Ok a, h') => k a h'
       | (Raise e, h') => (Raise e, h')
       end.

Notation "'let!' x ':=' m 'in' k" := (bind m (λ x, k))
  (at level 10, x name, m at level 100, k at level 200).
Notation "'do!' m 'in' k" := (bind m (λ _, k))
  (at level 10, m at level 100, k at level 200).

(** *** Heap primitives *)

Definition new_dict (m : gmap string Z) : M loc :=
  λ h, let d := fresh (dom (dicts h)) in
       (Ok d, Heap (objs h) (<[d := m]> (dicts h))).

Definition read_dict (d : loc) : M (gmap string Z) :=
  λ h, match dicts h !! d with
       | Some m => (Ok m, h)
       | None => (Raise DanglingRef, h)
       end.

Definition write_dict (d : loc) (m : gmap string Z) : M unit :=
  λ h, (Ok tt, Heap (objs h) (<[d := m]> (dicts h))).

Definition new_instance (s : Sorcerer) : M loc :=
  λ h, let o := fresh (dom (objs h)) in
       (Ok o, Heap (<[o := s]> (objs h)) (dicts h)).

Definition read_instance (o : loc) : M Sorcerer :=
  λ h, match objs h !! o with
       | Some s => (Ok s, h)
       | None => (Raise DanglingRef, h)
       end.

Definition write_instance (o : loc) (s : Sorcerer) : M unit :=
  λ h, (Ok tt, Heap (<[o := s]> (objs h)) (dicts h)).

(** *** Built-in [dict] operations, on a reference *)

(** [bool(d)]: a dictionary is truthy when it is not empty. *)
Definition dict_bool (d : loc) : M bool :=
  let! m := read_dict d in ret (negb (bool_decide (m = ∅))).

(** [len(d)] *)
Definition dict_len (d : loc) : M Z :=
  let! m := read_dict d in ret (Z.of_nat (size m)).

(** [k in d] *)
Definition dict_contains (d : loc) (k : string) : M bool :=
  let! m := read_dict d in ret (bool_decide (is_Some (m !! k))).

(** [d[k]] *)
Definition dict_getitem (d : loc) (k : string) : M Z :=
  let! m := read_dict d in
  match m !! k with
  | Some v => ret v
  | None => raise (KeyError k)
  end.

(** [d[k] = v] *)
Definition dict_setitem (d : loc) (k : string) (v : Z) : M unit :=
  let! m := read_dict d in write_dict d (<[k := v]> m).

(** [del d[k]] *)
Definition dict_delitem (d : loc) (k : string) : M unit :=
  let! m := read_dict d in
  match m !! k with
  | Some _ => write_dict d (delete k m)
  | None => raise (KeyError k)
  end.

(** [d.copy()]: a new dictionary with the same entries. *)
Definition dict_copy (d : loc) : M loc :=
  let! m := read_dict d in new_dict m.

(** ** Object creation and initialisation (lines 23-38)

    [__new__] only allocates the instance.  [__init__] stores its four
    arguments with [super().__setattr__], that is with [object]'s own
    attribute store: the guards of [Sorcerer.__setattr__] below are not run.
    The stored spell book is [spells or {}]: the argument itself when it is a
    non-empty dictionary, a new empty dictionary when it is [None] or empty. *)
Definition __init__ (name0 : string) (level0 mana0 : Z) (spells0 : option loc)
  : M loc :=
  let! d := match spells0 with
            | None => new_dict ∅
            | Some d0 =>
                let! truthy := dict_bool d0 in
                if truthy then ret d0 else new_dict ∅
            end in
  new_instance (mkSorcerer name0 level0 mana0 d).

(** ** Attribute access (lines 255-283) *)

(** A well-typed attribute assignment [self.<attr> = <value>]. *)
Inductive assignment : Type :=
| Set_name (v : string)
| Set_level (v : Z)
| Set_mana (v : Z)
| Set_spells (v : loc).

(** [object.__setattr__]: the plain store. *)
Definition object_setattr (a : assignment) (s : Sorcerer) : Sorcerer :=
  match a with
  | Set_name v => mkSorcerer v (level s) (mana s) (spells s)
  | Set_level v => mkSorcerer (name s) v (mana s) (spells s)
  | Set_mana v => mkSorcerer (name s) (level s) v (spells s)
  | Set_spells v => mkSorcerer (name s) (level s) (mana s) v
  end.

(** [Sorcerer.__setattr__] (lines 274-283): two guards, then the store. *)
Definition __setattr__ (self : loc) (a : assignment) : M unit :=
  match a with
  | Set_level v =>
      if v <? 1 then raise (ValueError "Sorcerer level must be >= 1")
      else let! s := read_instance self in write_instance self (object_setattr a s)
  | Set_mana v =>
      if v <? 0 then raise (ValueError "Mana cannot be negative")
      else let! s := read_instance self in write_instance self (object_setattr a s)
  | _ => let! s := read_instance self in write_instance self (object_setattr a s)
  end.

(** [object.__getattribute__] on the instance attributes.  Methods and
    other class attributes are not modelled. *)
Definition object_getattribute (s : Sorcerer) (attr : string) : option val :=
  if String.eqb attr "name" then Some (VStr (name s))
  else if String.eqb attr "level" then Some (VInt (level s))
  else if String.eqb attr "mana" then Some (VInt (mana s))
  else if String.eqb attr "spells" then Some (VDict (spells s))
  else None.

(** [Sorcerer.__getattribute__] (lines 255-263): [hp] is renamed to [mana]
    before the lookup. *)
Definition __getattribute__ (self : loc) (attr : string) : M val :=
  let attr' := if String.eqb attr "hp" then "mana" else attr in
  let! s := read_instance self in
  match object_getattribute s attr' with
  | Some v => ret v
  | None => raise (AttributeError attr')
  end.

(** [Sorcerer.__getattr__] (lines 265-272) *)
Definition __getattr__ (self : loc) (attr : string) : M val :=
  if String.eqb attr "num_spells" then
    let! s := read_instance self in
    let! n := dict_len (spells s) in
    ret (VInt n)
  else raise (AttributeError attr).

(** The expression [self.<attr>]: [__getattribute__], and when that raises
    [AttributeError], [__getattr__] with the name as it was written. *)
Definition getattr (self : loc) (attr : string) : M val :=
  λ h, match __getattribute__ self attr h with
       | (Raise (AttributeError _), h') => __getattr__ self attr h'
       | r => r
       end.

(** ** Comparison and hashing (lines 78-99) *)

(** [None] stands for [NotImplemented]. *)
Definition __eq__ (self : loc) (other : val) : M (option bool) :=
  match other with
  | VSorcerer o =>
      let! a := read_instance self in
      let! b := read_instance o in
      ret (Some (String.eqb (name a) (name b) && (level a =? level b)))
  | _ => ret None
  end.

Definition __lt__ (self : loc) (other : val) : M (option bool) :=
  match other with
  | VSorcerer o =>
      let! a := read_instance self in
      let! b := read_instance o in
      ret (Some ((level a <? level b)
                 || ((level a =? level b) && (mana a <? mana b))))
  | _ => ret None
  end.

Section Hashing.

(** Python's built-in [hash] on a pair of a string and an integer. *)
Variable builtin_hash : string * Z → Z.

Definition __hash__ (self : loc) : M Z :=
  let! s := read_instance self in ret (builtin_hash (name s, level s)).

End Hashing.

(** ** Truth value and length (lines 104-114) *)

Definition __bool__ (self : loc) : M bool :=
  let! s := read_instance self in ret (mana s >? 0).

Definition __len__ (self : loc) : M Z :=
  let! s := read_instance self in dict_len (spells s).

(** ** Container protocol (lines 126-148) *)

Definition __contains__ (self : loc) (spell_name : string) : M bool :=
  let! s := read_instance self in dict_contains (spells s) spell_name.

Definition __getitem__ (self : loc) (spell_name : string) : M Z :=
  let! s := read_instance self in dict_getitem (spells s) spell_name.

Definition __setitem__ (self : loc) (spell_name : string) (spell_level : Z)
  : M unit :=
  let! s := read_instance self in dict_setitem (spells s) spell_name spell_level.

Definition __delitem__ (self : loc) (spell_name : string) : M unit :=
  let! s := read_instance self in dict_delitem (spells s) spell_name.

(** ** Numeric protocol (lines 153-227)

    The operand is [Any]; [isinstance(other, int)] selects [VInt]. *)

Definition __add__ (self : loc) (other : val) : M loc :=
  match other with
  | VInt n =>
      let! s := read_instance self in
      let! d := dict_copy (spells s) in
      __init__ (name s) (level s) (mana s + n) (Some d)
  | _ => raise (ValueError "Can only add mana to Sorcerer")
  end.

Definition __sub__ (self : loc) (other : val) : M loc :=
  match other with
  | VInt n =>
      let! s := read_instance self in
      let new_mana := Z.max 0 (mana s - n) in
      let! d := dict_copy (spells s) in
      __init__ (name s) (level s) new_mana (Some d)
  | _ => raise (ValueError "Can only subtract mana from Sorcerer")
  end.

Definition __mul__ (self : loc) (other : val) : M loc :=
  match other with
  | VInt n =>
      let! s := read_instance self in
      let! d := dict_copy (spells s) in
      __init__ (name s) (level s) (mana s * n) (Some d)
  | _ => raise (ValueError "Can only multiply Sorcerer by int")
  end.

(** [//] is floor division, as is [Z.div]. *)
Definition __truediv__ (self : loc) (other : val) : M loc :=
  match other with
  | VInt n =>
      if n =? 0 then raise (ValueError "Cannot divide by zero")
      else
        let! s := read_instance self in
        let! d := dict_copy (spells s) in
        __init__ (name s) (level s) (mana s `div` n) (Some d)
  | _ => raise (ValueError "Can only divide Sorcerer by int")
  end.

Definition __radd__ (self : loc) (other : val) : M loc := __add__ self other.

(** [self.mana += other] is the assignment [self.mana = self.mana + other],
    which goes through [__setattr__]; the method returns [self]. *)
Definition __iadd__ (self : loc) (other : val) : M loc :=
  match other with
  | VInt n =>
      let! s := read_instance self in
      do! __setattr__ self (Set_mana (mana s + n)) in
      ret self
  | _ => raise (ValueError "Can only add int to Sorcerer")
  end.

(** ** Callable instance (lines 232-250) *)

Definition unknown_spell (who spell_name : string) : string :=
  who +:+ " doesn't know the spell '" +:+ spell_name +:+ "'.".

Definition lacks_mana (who spell_name : string) : string :=
  who +:+ " tries to cast '" +:+ spell_name +:+ "' but lacks mana!".

Definition cast_text (who spell_name : string) (target : option string)
    (cost remaining : Z) : string :=
  match target with
  | None =>
      who +:+ " casts '" +:+ spell_name +:+ "' (cost " +:+ pretty cost
          +:+ " MP). Remaining mana: " +:+ pretty remaining +:+ "."
  | Some t =>
      who +:+ " casts '" +:+ spell_name +:+ "' on " +:+ t +:+ "! (cost "
          +:+ pretty cost +:+ " MP, remaining mana: " +:+ pretty remaining
          +:+ ")"
  end.

Definition __call__ (self : loc) (spell_name : string) (target : option string)
  : M string :=
  let! s := read_instance self in
  let! known := dict_contains (spells s) spell_name in
  if negb known then ret (unknown_spell (name s) spell_name)
  else
    let! cost := dict_getitem (spells s) spell_name in
    if mana s <? cost then ret (lacks_mana (name s) spell_name)
    else
      do! __setattr__ self (Set_mana (mana s - cost)) in
      let! s' := read_instance self in
      ret (cast_text (name s') spell_name target cost (mana s')).

(** ** Scenarios *)

(** The ways the class changes the mana or the spell book of an instance. *)
Inductive mutation : Type :=
| Assign_mana (v : Z)
| Assign_spells (d : loc)
| Iadd (other : val)
| Call (spell_name : string) (target : option string)
| Setitem (spell_name : string) (spell_level : Z)
| Delitem (spell_name : string).

Definition mutate (self : loc) (m : mutation) : heap → heap :=
  λ h, match m with
       | Assign_mana v => snd (__setattr__ self (Set_mana v) h)
       | Assign_spells d => snd (__setattr__ self (Set_spells d) h)
       | Iadd other => snd (__iadd__ self other h)
       | Call sp t => snd (__call__ self sp t h)
       | Setitem k v => snd (__setitem__ self k v h)
       | Delitem k => snd (__delitem__ self k h)
       end.

(** A caller's dictionary [{"fireball": 3}] at reference 1. *)
Definition caller_heap : heap :=
  Heap ∅ {[ 1%positive := {[ "fireball" := 3 ]} ]}.

(** [m = {"fireball": 3}; c = Sorcerer("A", 5, 20, m)]; the instance is
    asked for ["iceball"] before and after the caller writes
    [m["iceball"] = 7]; then [c["shield"] = 1] and [m] is asked for
    ["shield"]. *)
Definition sharing_scenario : M (bool * bool * bool) :=
  let! c := __init__ "A" 5 20 (Some 1%positive) in
  let! before := __contains__ c "iceball" in
  do! dict_setitem 1%positive "iceball" 7 in
  let! after := __contains__ c "iceball" in
  do! __setitem__ c "shield" 1 in
  let! seen := dict_contains 1%positive "shield" in
  ret (before, after, seen).

(** [c = Sorcerer("A", 5, mana0, {"fireball": 3}); c(spell)]: the text
    returned and the mana left. *)
Definition fireball_scenario (mana0 : Z) (spell : string) : M (string * Z) :=
  let! d := new_dict {[ "fireball" := 3 ]} in
  let! c := __init__ "A" 5 mana0 (Some d) in
  let! text := __call__ c spell None in
  let! s := read_instance c in
  ret (text, mana s).

(** [c = Sorcerer("A", 5, 20); c2 = c + 10]: the mana of [c2] and of [c]. *)
Definition add_scenario : M (Z * Z) :=
  let! c := __init__ "A" 5 20 None in
  let! c2 := __add__ c (VInt 10) in
  let! s2 := read_instance c2 in
  let! s := read_instance c in
  ret (mana s2, mana s).

(** [c = Sorcerer("A", 5, 20); r = c.__iadd__(10)]: whether [r is c], and
    the mana of [c]. *)
Definition iadd_scenario : M (bool * Z) :=
  let! c := __init__ "A" 5 20 None in
  let! r := __iadd__ c (VInt 10) in
  let! s := read_instance c in
  ret (bool_decide (r = c), mana s).

(** The mana of the instance a method returns, read back from the heap. *)
Definition mana_of (m : M loc) : M Z :=
  let! o := m in let! s := read_instance o in ret (mana s).

Definition level_of (m : M loc) : M Z :=
  let! o := m in let! s := read_instance o in ret (level s).

(** An instance with mana 20 whose spell book is [{"fireball": 3}]. *)
Definition demo_instance : Sorcerer := mkSorcerer "A" 5 20 2%positive.

Definition demo_heap : heap :=
  Heap {[ 1%positive := demo_instance ]}
       {[ 2%positive := {[ "fireball" := 3 ]} ]}.

(** ** Vocabulary of the statements *)

(** The pair [(self.name, self.level)] that [__eq__] compares and
    [__hash__] hashes. *)
Definition identity_of (s : Sorcerer) : string * Z := (name s, level s).

(** [h'] holds the same instances as [h], each with the name and the level
    it has in [h]. *)
Definition same_identity (h h' : heap) : Prop :=
  ∀ o, identity_of <$> objs h' !! o = identity_of <$> objs h !! o.

Definition keeps_identity {A} (m : M A) : Prop :=
  ∀ h, same_identity h (snd (m h)).

(** ** String forms (lines 52-73)

    A [string] stands for a Python [str] through its UTF-8 bytes, so that
    concatenation and equality are those of Python and [encode("utf-8")]
    returns the bytes as they are.  [__repr__] is left out: it needs
    [repr] of a string and the insertion order of the spell book. *)

Definition __str__ (self : loc) : M string :=
  let! s := read_instance self in
  let! n := __len__ self in
  ret ("Sorcerer " +:+ name s +:+ " (Lv " +:+ pretty (level s) +:+ ", Mana "
         +:+ pretty (mana s) +:+ ", " +:+ pretty n +:+ " spells)").

Section Formatting.

(** Python's built-in [format] on a string and a format specification; it
    raises on a specification it does not know. *)
Variable builtin_format : string → string → result string.

Definition __format__ (self : loc) (format_spec : string) : M string :=
  if String.eqb format_spec "short" then
    let! s := read_instance self in
    ret (name s +:+ " (Lv " +:+ pretty (level s) +:+ ")")
  else if String.eqb format_spec "mana" then
    let! s := read_instance self in
    ret (name s +:+ ": " +:+ pretty (mana s) +:+ " MP")
  else
    let! text := __str__ self in
    match builtin_format text format_spec with
    | Ok t => ret t
    | Raise e => raise e
    end.

End Formatting.

Definition __bytes__ (self : loc) : M string :=
  let! s := read_instance self in
  ret (name s +:+ "|" +:+ pretty (level s) +:+ "|" +:+ pretty (mana s)).

(** ** More vocabulary *)

(** The five operators that build a new instance. *)
Inductive operator : Type := Add | Sub | Mul | Truediv | Radd.

Definition apply_operator (op : operator) : loc → val → M loc :=
  match op with
  | Add => __add__
  | Sub => __sub__
  | Mul => __mul__
  | Truediv => __truediv__
  | Radd => __radd__
  end.

(** The message of the [ValueError] each of them raises on an operand that
    is not an integer. *)
Definition operand_message (op : operator) : string :=
  match op with
  | Add | Radd => "Can only add mana to Sorcerer"
  | Sub => "Can only subtract mana from Sorcerer"
  | Mul => "Can only multiply Sorcerer by int"
  | Truediv => "Can only divide Sorcerer by int"
  end.

(** The mana each of them gives the new instance. *)
Definition operator_mana (op : operator) (m n : Z) : Z :=
  match op with
  | Add | Radd => m + n
  | Sub => Z.max 0 (m - n)
  | Mul => m * n
  | Truediv => m `div` n
  end.

Definition is_int (v : val) : bool :=
  match v with VInt _ => true | _ => false end.

(** The invariant the guards of [__setattr__] stand for. *)
Definition valid_instance (s : Sorcerer) : Prop := 1 ≤ level s ∧ 0 ≤ mana s.

Definition valid_heap (h : heap) : Prop :=
  ∀ o s, objs h !! o = Some s → valid_instance s.

Definition keeps_valid {A} (m : M A) : Prop :=
  ∀ h, valid_heap h → valid_heap (snd (m h)).

(** Every way of changing an instance in place: an assignment to one of its
    attributes, or one of the mutations above. *)
Inductive update : Type :=
| Assign (a : assignment)
| Mutation (m : mutation).

Definition apply_update (self : loc) (u : update) : heap → heap :=
  λ h, match u with
       | Assign a => snd (__setattr__ self a h)
       | Mutation m => mutate self m h
       end.

(** [c in s]: the byte [c] occurs in [s]. *)
Fixpoint has_char (c : Ascii.ascii) (s : string) : bool :=
  match s with
  | EmptyString => false
  | String c' s' => Ascii.eqb c c' || has_char c s'
  end.

(** * Properties *)

(** ** Running the monad *)

Lemma bind_ok {A B} (m : M A) (k : A → M B) h a h' :
  m h = (Ok a, h') → bind m k h = k a h'.
Proof. intros E. unfold bind. now rewrite E. Qed.

Lemma bind_raise {A B} (m : M A) (k : A → M B) h e h' :
  m h = (Raise e, h') → bind m k h = (Raise e, h').
Proof. intros E. unfold bind. now rewrite E. Qed.

Lemma read_instance_ok h o s :
  objs h !! o = Some s → read_instance o h = (Ok s, h).
Proof. intros E. unfold read_instance. now rewrite E. Qed.

Lemma read_instance_dangling h o :
  objs h !! o = None → read_instance o h = (Raise DanglingRef, h).
Proof. intros E. unfold read_instance. now rewrite E. Qed.

Lemma read_dict_ok h d m :
  dicts h !! d = Some m → read_dict d h = (Ok m, h).
Proof. intros E. unfold read_dict. now rewrite E. Qed.

(** Unfolds one method on a live instance. *)
Ltac on_instance H :=
  erewrite bind_ok by (apply read_instance_ok, H).

Ltac on_dict H :=
  erewrite bind_ok by (apply read_dict_ok, H).

(** ** Dictionaries and attribute writes *)

Lemma dict_bool_run h d m :
  dicts h !! d = Some m →
  dict_bool d h = (Ok (negb (bool_decide (m = ∅))), h).
Proof. intros Hd. unfold dict_bool. now on_dict Hd. Qed.

Lemma dict_contains_run h d m k :
  dicts h !! d = Some m →
  dict_contains d k h = (Ok (bool_decide (is_Some (m !! k))), h).
Proof. intros Hd. unfold dict_contains. now on_dict Hd. Qed.

Lemma dict_getitem_run h d m k :
  dicts h !! d = Some m →
  dict_getitem d k h
  = match m !! k with
    | Some v => (Ok v, h)
    | None => (Raise (KeyError k), h)
    end.
Proof. intros Hd. unfold dict_getitem. on_dict Hd. now destruct (m !! k). Qed.

Lemma dict_setitem_run h d m k v :
  dicts h !! d = Some m →
  dict_setitem d k v h = (Ok tt, Heap (objs h) (<[d := <[k := v]> m]> (dicts h))).
Proof. intros Hd. unfold dict_setitem. now on_dict Hd. Qed.

Lemma setattr_mana_ok h c s v :
  objs h !! c = Some s → 0 ≤ v →
  __setattr__ c (Set_mana v) h
  = (Ok tt, Heap (<[c := mkSorcerer (name s) (level s) v (spells s)]> (objs h))
                 (dicts h)).
Proof.
  intros Hc Hv. unfold __setattr__.
  destruct (Z.ltb_spec v 0); [lia|]. now on_instance Hc.
Qed.

Lemma setattr_mana_negative h c v :
  v < 0 →
  __setattr__ c (Set_mana v) h = (Raise (ValueError "Mana cannot be negative"), h).
Proof.
  intros Hv. unfold __setattr__. now destruct (Z.ltb_spec v 0); [|lia].
Qed.

Lemma setattr_level_low h c v :
  v < 1 →
  __setattr__ c (Set_level v) h
  = (Raise (ValueError "Sorcerer level must be >= 1"), h).
Proof.
  intros Hv. unfold __setattr__. now destruct (Z.ltb_spec v 1); [|lia].
Qed.

(** ** Construction *)

Lemma init_none_run h nm lv mn :
  __init__ nm lv mn None h
  = (Ok (fresh (dom (objs h))),
     Heap (<[fresh (dom (objs h)) := mkSorcerer nm lv mn (fresh (dom (dicts h)))]>
             (objs h))
          (<[fresh (dom (dicts h)) := ∅]> (dicts h))).
Proof. reflexivity. Qed.

Lemma init_nonempty_run h nm lv mn d m :
  dicts h !! d = Some m → m ≠ ∅ →
  __init__ nm lv mn (Some d) h
  = (Ok (fresh (dom (objs h))),
     Heap (<[fresh (dom (objs h)) := mkSorcerer nm lv mn d]> (objs h)) (dicts h)).
Proof.
  intros Hd Hm. unfold __init__.
  assert ((let! truthy := dict_bool d in if truthy then ret d else new_dict ∅) h
          = (Ok d, h)) as E.
  { erewrite bind_ok by (apply dict_bool_run, Hd).
    now rewrite bool_decide_eq_false_2 by assumption. }
  now erewrite bind_ok by exact E.
Qed.

Lemma init_empty_run h nm lv mn d :
  dicts h !! d = Some ∅ →
  __init__ nm lv mn (Some d) h = __init__ nm lv mn None h.
Proof.
  intros Hd. unfold __init__.
  assert ((let! truthy := dict_bool d in if truthy then ret d else new_dict ∅) h
          = new_dict ∅ h) as E.
  { erewrite bind_ok by (apply dict_bool_run, Hd).
    now rewrite bool_decide_eq_true_2 by reflexivity. }
  unfold bind at 1 3. now rewrite E.
Qed.

Lemma fresh_dict_not_live (h : heap) : dicts h !! fresh (dom (dicts h)) = None.
Proof. apply not_elem_of_dom, is_fresh. Qed.

Lemma fresh_instance_not_live (h : heap) : objs h !! fresh (dom (objs h)) = None.
Proof. apply not_elem_of_dom, is_fresh. Qed.

(** What the four operators share: copy the spell book, then build an
    instance around the copy.  The instance and its spell book are new, the
    spell book holds the entries of the original, and nothing that was in the
    heap has changed. *)
Lemma copy_then_init_run h d m nm lv mn :
  dicts h !! d = Some m →
  ∃ d' h',
    (let! d1 := dict_copy d in __init__ nm lv mn (Some d1)) h
    = (Ok (fresh (dom (objs h))), h')
    ∧ objs h' = <[fresh (dom (objs h)) := mkSorcerer nm lv mn d']> (objs h)
    ∧ (d' ∉ dom (dicts h))
    ∧ dicts h' !! d' = Some m
    ∧ ∀ d0, is_Some (dicts h !! d0) → dicts h' !! d0 = dicts h !! d0.
Proof.
  intros Hd.
  set (d1 := fresh (dom (dicts h))).
  set (h1 := Heap (objs h) (<[d1 := m]> (dicts h))).
  assert (dict_copy d h = (Ok d1, h1)) as Hcopy.
  { unfold dict_copy. now on_dict Hd. }
  assert (dicts h1 !! d1 = Some m) as Hd1 by apply lookup_insert_eq.
  assert (∀ d0, is_Some (dicts h !! d0) → d0 ≠ d1) as Hne.
  { intros d0 [x Hx] ->. unfold d1 in Hx. rewrite fresh_dict_not_live in Hx.
    discriminate. }
  destruct (decide (m = ∅)) as [->|Hm].
  - set (d2 := fresh (dom (dicts h1))).
    exists d2, (Heap (<[fresh (dom (objs h)) := mkSorcerer nm lv mn d2]> (objs h))
                     (<[d2 := ∅]> (dicts h1))).
    assert (d2 ≠ d1) as Hd2.
    { intros E. pose proof (fresh_dict_not_live h1) as F. fold d2 in F.
      rewrite E, Hd1 in F. discriminate. }
    split; [|split; [|split; [|split]]].
    + erewrite bind_ok by exact Hcopy.
      rewrite (init_empty_run _ _ _ _ _ Hd1). apply init_none_run.
    + reflexivity.
    + intros Hin. apply elem_of_dom in Hin.
      pose proof (fresh_dict_not_live h1) as F. fold d2 in F.
      unfold h1 in F. cbn [dicts] in F.
      rewrite lookup_insert_ne in F by congruence.
      destruct Hin as [x Hx]. congruence.
    + cbn [dicts]. apply lookup_insert_eq.
    + intros d0 H0. cbn [dicts].
      assert (d0 ≠ d2) as N.
      { intros ->. pose proof (fresh_dict_not_live h1) as F. fold d2 in F.
        unfold h1 in F. cbn [dicts] in F.
        rewrite lookup_insert_ne in F by congruence.
        destruct H0 as [x Hx]. congruence. }
      rewrite lookup_insert_ne by congruence.
      apply lookup_insert_ne. specialize (Hne _ H0). congruence.
  - exists d1, (Heap (<[fresh (dom (objs h)) := mkSorcerer nm lv mn d1]> (objs h))
                     (dicts h1)).
    split; [|split; [|split; [|split]]].
    + erewrite bind_ok by exact Hcopy.
      apply (init_nonempty_run h1 nm lv mn d1 m Hd1 Hm).
    + reflexivity.
    + apply is_fresh.
    + exact Hd1.
    + intros d0 H0. cbn [dicts]. apply lookup_insert_ne.
      specialize (Hne _ H0). congruence.
Qed.

(** The same, read off at the receiver of an operator. *)
Lemma operator_run h c s book mn :
  objs h !! c = Some s →
  dicts h !! spells s = Some book →
  ∃ c' d' h',
    (let! d1 := dict_copy (spells s) in __init__ (name s) (level s) mn (Some d1)) h
    = (Ok c', h')
    ∧ (c' ∉ dom (objs h))
    ∧ objs h' !! c' = Some (mkSorcerer (name s) (level s) mn d')
    ∧ (d' ∉ dom (dicts h))
    ∧ dicts h' !! d' = Some book
    ∧ objs h' !! c = Some s
    ∧ dicts h' !! spells s = Some book.
Proof.
  intros Hc Hd.
  destruct (copy_then_init_run h (spells s) book (name s) (level s) mn Hd)
    as (d' & h' & Hrun & Hobjs & Hnew & Hbook & Hold).
  exists (fresh (dom (objs h))), d', h'.
  assert (c ≠ fresh (dom (objs h))) as Hne.
  { intros E. pose proof (fresh_instance_not_live h) as F. congruence. }
  repeat split; try assumption.
  - apply is_fresh.
  - rewrite Hobjs. apply lookup_insert_eq.
  - rewrite Hobjs, lookup_insert_ne by congruence. exact Hc.
  - rewrite Hold by eauto. exact Hd.
Qed.

(** ** Truth value *)

(** C10: [bool(c)] is true exactly when [c.mana > 0]; an instance whose
    mana is 0 is falsy whatever its level and spell book. *)
Theorem bool_iff_mana_positive (h : heap) (c : loc) (s : Sorcerer) :
  objs h !! c = Some s →
  ∃ b, __bool__ c h = (Ok b, h)
       ∧ (b = true ↔ mana s > 0)
       ∧ (mana s = 0 → b = false).
Proof.
  intros Hc. exists (mana s >? 0). split; [|split].
  - unfold __bool__. now on_instance Hc.
  - rewrite Z.gtb_gt. lia.
  - intros ->. reflexivity.
Qed.

Lemma bool_iff_mana_positive_witness :
  ∃ b, __bool__ 1%positive (Heap {[ 1%positive := mkSorcerer "A" 9 0 2%positive ]} ∅)
       = (Ok b, Heap {[ 1%positive := mkSorcerer "A" 9 0 2%positive ]} ∅)
       ∧ (b = true ↔ 0 > 0)
       ∧ (0 = 0 → b = false).
Proof.
  apply (bool_iff_mana_positive
           (Heap {[ 1%positive := mkSorcerer "A" 9 0 2%positive ]} ∅)
           1%positive (mkSorcerer "A" 9 0 2%positive)).
  reflexivity.
Defined.

(** ** Attribute alias *)

Lemma hp_is_mana (h : heap) (c : loc) : getattr c "hp" h = getattr c "mana" h.
Proof.
  unfold getattr, __getattribute__. cbn [String.eqb Ascii.eqb Bool.eqb].
  destruct (objs h !! c) as [s|] eqn:Hc.
  - now on_instance Hc.
  - now erewrite bind_raise by (apply read_instance_dangling, Hc).
Qed.

(** C9: on every instance and in every state, reading [hp] gives what
    reading [mana] gives, the current mana; this also holds in the state a
    mutation leaves. *)
Theorem hp_reads_mana (h : heap) (c : loc) (s : Sorcerer) :
  objs h !! c = Some s →
  getattr c "hp" h = (Ok (VInt (mana s)), h)
  ∧ getattr c "mana" h = (Ok (VInt (mana s)), h)
  ∧ ∀ o m, getattr c "hp" (mutate o m h) = getattr c "mana" (mutate o m h).
Proof.
  intros Hc.
  assert (getattr c "mana" h = (Ok (VInt (mana s)), h)) as E.
  { unfold getattr, __getattribute__. cbn [String.eqb Ascii.eqb Bool.eqb].
    now on_instance Hc. }
  split; [|split]; try assumption.
  - now rewrite hp_is_mana.
  - intros o m. apply hp_is_mana.
Qed.

Lemma hp_reads_mana_witness :
  getattr 1%positive "hp" (Heap {[ 1%positive := mkSorcerer "A" 5 20 2%positive ]} ∅)
  = (Ok (VInt 20), Heap {[ 1%positive := mkSorcerer "A" 5 20 2%positive ]} ∅).
Proof.
  apply (hp_reads_mana
           (Heap {[ 1%positive := mkSorcerer "A" 5 20 2%positive ]} ∅)
           1%positive (mkSorcerer "A" 5 20 2%positive)).
  reflexivity.
Defined.

(** ** Casting a spell *)

(** C4: [c(spell)] has three outcomes, each with the text the source
    builds.  An unknown spell and a spell that costs more than the mana at
    hand name the caster and the spell and leave the heap, so the mana, as it
    was; otherwise the mana goes down by the cost, and the text names the
    caster, the spell, the target when there is one, the cost and, in
    decimal, the mana left.  With mana 20 and [fireball: 3], casting leaves
    17. *)
Theorem call_three_states (h : heap) (c : loc) (s : Sorcerer)
    (book : gmap string Z) (spell : string) (target : option string) :
  objs h !! c = Some s →
  dicts h !! spells s = Some book →
  (book !! spell = None →
     __call__ c spell target h
     = (Ok (name s +:+ " doesn't know the spell '" +:+ spell +:+ "'."), h))
  ∧ (∀ cost, book !! spell = Some cost → mana s < cost →
       __call__ c spell target h
       = (Ok (name s +:+ " tries to cast '" +:+ spell +:+ "' but lacks mana!"),
          h))
  ∧ (∀ cost, book !! spell = Some cost → cost ≤ mana s →
       __call__ c spell target h
       = (Ok match target with
             | None =>
                 name s +:+ " casts '" +:+ spell +:+ "' (cost " +:+ pretty cost
                   +:+ " MP). Remaining mana: " +:+ pretty (mana s - cost)
                   +:+ "."
             | Some t =>
                 name s +:+ " casts '" +:+ spell +:+ "' on " +:+ t
                   +:+ "! (cost " +:+ pretty cost +:+ " MP, remaining mana: "
                   +:+ pretty (mana s - cost) +:+ ")"
             end,
          Heap (<[c := mkSorcerer (name s) (level s) (mana s - cost) (spells s)]>
                  (objs h))
               (dicts h)))
  ∧ fst (fireball_scenario 20 "fireball" empty_heap)
    = Ok ("A casts 'fireball' (cost 3 MP). Remaining mana: 17.", 17)
  ∧ fst (fireball_scenario 20 "iceball" empty_heap)
    = Ok ("A doesn't know the spell 'iceball'.", 20)
  ∧ fst (fireball_scenario 1 "fireball" empty_heap)
    = Ok ("A tries to cast 'fireball' but lacks mana!", 1).
Proof.
  intros Hc Hd. repeat split.
  - intros Hk. unfold __call__. on_instance Hc.
    erewrite bind_ok by (apply dict_contains_run, Hd).
    rewrite Hk. rewrite bool_decide_eq_false_2 by (intros [? ?]; discriminate).
    reflexivity.
  - intros cost Hk Hlt. unfold __call__. on_instance Hc.
    erewrite bind_ok by (apply dict_contains_run, Hd).
    rewrite Hk, bool_decide_eq_true_2 by eauto. cbn [negb].
    erewrite bind_ok by (rewrite (dict_getitem_run _ _ _ _ Hd), Hk; reflexivity).
    destruct (Z.ltb_spec (mana s) cost); [reflexivity | lia].
  - intros cost Hk Hle. unfold __call__. on_instance Hc.
    erewrite bind_ok by (apply dict_contains_run, Hd).
    rewrite Hk, bool_decide_eq_true_2 by eauto. cbn [negb].
    erewrite bind_ok by (rewrite (dict_getitem_run _ _ _ _ Hd), Hk; reflexivity).
    destruct (Z.ltb_spec (mana s) cost); [lia|].
    erewrite bind_ok by (apply (setattr_mana_ok _ _ _ _ Hc); lia).
    erewrite bind_ok
      by (apply read_instance_ok; cbn [objs]; apply lookup_insert_eq).
    reflexivity.
Qed.

Lemma call_three_states_witness :
  __call__ 1%positive "fireball" None demo_heap
  = (Ok "A casts 'fireball' (cost 3 MP). Remaining mana: 17.",
     Heap {[ 1%positive := mkSorcerer "A" 5 17 2%positive ]} (dicts demo_heap)).
Proof.
  destruct (call_three_states demo_heap 1%positive demo_instance
              {[ "fireball" := 3 ]} "fireball" None eq_refl eq_refl)
    as (_ & _ & Hcast & _).
  rewrite (Hcast 3 eq_refl ltac:(cbn; lia)). reflexivity.
Defined.

(** ** Arithmetic operators *)

(** C6: when [c.mana + n >= 0], [c + n] returns an instance that was not in
    the heap, with the name and level of [c], mana [c.mana + n] and a spell
    book that is a new dictionary with the entries of [c]'s; [c] and its
    spell book are as before.  [c += n] returns [c] itself, with mana
    [c.mana + n]: no instance is created and no dictionary changes. *)
Theorem add_is_new_iadd_in_place (h : heap) (c : loc) (s : Sorcerer)
    (book : gmap string Z) (n : Z) :
  objs h !! c = Some s →
  dicts h !! spells s = Some book →
  0 ≤ mana s + n →
  (∃ c' d' h',
      __add__ c (VInt n) h = (Ok c', h')
      ∧ (c' ∉ dom (objs h))
      ∧ objs h' !! c' = Some (mkSorcerer (name s) (level s) (mana s + n) d')
      ∧ (d' ∉ dom (dicts h))
      ∧ dicts h' !! d' = Some book
      ∧ objs h' !! c = Some s
      ∧ dicts h' !! spells s = Some book)
  ∧ (∃ h',
      __iadd__ c (VInt n) h = (Ok c, h')
      ∧ objs h'
        = <[c := mkSorcerer (name s) (level s) (mana s + n) (spells s)]> (objs h)
      ∧ dom (objs h') = dom (objs h)
      ∧ dicts h' = dicts h)
  ∧ fst (add_scenario empty_heap) = Ok (30, 20)
  ∧ fst (iadd_scenario empty_heap) = Ok (true, 30).
Proof.
  intros Hc Hd Hn. split; [|split; [|split]].
  - unfold __add__. on_instance Hc. apply operator_run; assumption.
  - eexists. split; [|split; [|split]].
    + unfold __iadd__. on_instance Hc.
      erewrite bind_ok by (apply (setattr_mana_ok _ _ _ _ Hc Hn)).
      reflexivity.
    + reflexivity.
    + cbn [objs]. rewrite dom_insert_L.
      apply subseteq_union_1_L, singleton_subseteq_l, elem_of_dom. eauto.
    + reflexivity.
  - reflexivity.
  - reflexivity.
Qed.

Lemma add_is_new_iadd_in_place_witness :
  ∃ h', __iadd__ 1%positive (VInt 10) demo_heap = (Ok 1%positive, h')
        ∧ objs h' = <[1%positive := mkSorcerer "A" 5 30 2%positive]> (objs demo_heap).
Proof.
  destruct (add_is_new_iadd_in_place demo_heap 1%positive demo_instance
              {[ "fireball" := 3 ]} 10 eq_refl eq_refl ltac:(cbn; lia))
    as (_ & (h' & Hrun & Hobjs & _) & _).
  exists h'. split; assumption.
Defined.

(** C7: [c - n] returns a new instance with mana [max(0, c.mana - n)],
    which is never negative, and raises nothing;
    [(Sorcerer("A", 5, 3) - 10).mana] is 0. *)
Theorem sub_clamps_at_zero (h : heap) (c : loc) (s : Sorcerer)
    (book : gmap string Z) (n : Z) :
  objs h !! c = Some s →
  dicts h !! spells s = Some book →
  (∃ c' d' h',
      __sub__ c (VInt n) h = (Ok c', h')
      ∧ (c' ∉ dom (objs h))
      ∧ objs h' !! c'
        = Some (mkSorcerer (name s) (level s) (Z.max 0 (mana s - n)) d')
      ∧ 0 ≤ Z.max 0 (mana s - n)
      ∧ objs h' !! c = Some s)
  ∧ fst (mana_of (let! a := __init__ "A" 5 3 None in __sub__ a (VInt 10))
           empty_heap) = Ok 0.
Proof.
  intros Hc Hd. split; [|reflexivity].
  destruct (operator_run h c s book (Z.max 0 (mana s - n)) Hc Hd)
    as (c' & d' & h' & Hrun & Hnew & Hobj & _ & _ & Hold & _).
  exists c', d', h'. unfold __sub__. on_instance Hc.
  repeat split; try assumption. lia.
Qed.

Lemma sub_clamps_at_zero_witness :
  ∃ c' d' h',
    __sub__ 1%positive (VInt 50) demo_heap = (Ok c', h')
    ∧ objs h' !! c' = Some (mkSorcerer "A" 5 0 d').
Proof.
  destruct (sub_clamps_at_zero demo_heap 1%positive demo_instance
              {[ "fireball" := 3 ]} 50 eq_refl eq_refl)
    as ((c' & d' & h' & Hrun & _ & Hobj & _) & _).
  exists c', d', h'. split; assumption.
Defined.

(** C8: for [n] other than 0, [c / n] returns a new instance whose mana is
    the floor of [c.mana / n]: the integer [q] with
    [q * n <= c.mana < (q + 1) * n] for positive [n], and with the
    inequalities turned for negative [n]; [(Sorcerer("A", 5, 7) / 2).mana]
    is 3.  [c / 0] raises the error [Cannot divide by zero] and leaves the
    heap as it was. *)
Theorem truediv_floors_or_rejects_zero (h : heap) (c : loc) (s : Sorcerer)
    (book : gmap string Z) (n : Z) :
  objs h !! c = Some s →
  dicts h !! spells s = Some book →
  (n ≠ 0 →
     ∃ c' d' h' q,
       __truediv__ c (VInt n) h = (Ok c', h')
       ∧ (c' ∉ dom (objs h))
       ∧ objs h' !! c' = Some (mkSorcerer (name s) (level s) q d')
       ∧ q = mana s `div` n
       ∧ (0 < n → q * n ≤ mana s < (q + 1) * n)
       ∧ (n < 0 → (q + 1) * n < mana s ≤ q * n)
       ∧ objs h' !! c = Some s)
  ∧ __truediv__ c (VInt 0) h = (Raise (ValueError "Cannot divide by zero"), h)
  ∧ fst (mana_of (let! a := __init__ "A" 5 7 None in __truediv__ a (VInt 2))
           empty_heap) = Ok 3.
Proof.
  intros Hc Hd. split; [|split; reflexivity].
  intros Hn.
  destruct (operator_run h c s book (mana s `div` n) Hc Hd)
    as (c' & d' & h' & Hrun & Hnew & Hobj & _ & _ & Hold & _).
  exists c', d', h', (mana s `div` n). unfold __truediv__.
  destruct (Z.eqb_spec n 0) as [|_]; [contradiction|]. on_instance Hc.
  repeat split; try assumption.
  - pose proof (Z.mul_div_le (mana s) n). lia.
  - pose proof (Z.mul_succ_div_gt (mana s) n). lia.
  - pose proof (Z.mul_succ_div_lt (mana s) n). lia.
  - pose proof (Z.mul_div_ge (mana s) n). lia.
Qed.

Lemma truediv_floors_or_rejects_zero_witness :
  ∃ c' d' h',
    __truediv__ 1%positive (VInt (-3)) demo_heap = (Ok c', h')
    ∧ objs h' !! c' = Some (mkSorcerer "A" 5 (-7) d').
Proof.
  destruct (truediv_floors_or_rejects_zero demo_heap 1%positive demo_instance
              {[ "fireball" := 3 ]} (-3) eq_refl eq_refl)
    as (Hdiv & _).
  assert (-3 ≠ 0) as Hn by lia.
  destruct (Hdiv Hn) as (c' & d' & h' & q & Hrun & _ & Hobj & Hq & _).
  exists c', d', h'. split; [assumption|]. rewrite Hobj, Hq. reflexivity.
Defined.

(** ** Equality and hashing *)

Lemma same_identity_refl h : same_identity h h.
Proof. intros o. reflexivity. Qed.

Lemma same_identity_trans h1 h2 h3 :
  same_identity h1 h2 → same_identity h2 h3 → same_identity h1 h3.
Proof. intros H12 H23 o. now rewrite H23, H12. Qed.

Lemma same_identity_objs h h' : objs h' = objs h → same_identity h h'.
Proof. intros E o. now rewrite E. Qed.

Lemma keeps_ret {A} (a : A) : keeps_identity (ret a).
Proof. intros h. apply same_identity_refl. Qed.

Lemma keeps_raise {A} e : keeps_identity (@raise A e).
Proof. intros h. apply same_identity_refl. Qed.

Lemma keeps_bind {A B} (m : M A) (k : A → M B) :
  keeps_identity m → (∀ a, keeps_identity (k a)) → keeps_identity (bind m k).
Proof.
  intros Hm Hk h. unfold bind. specialize (Hm h).
  destruct (m h) as [[a|e] h1]; cbn [snd] in *.
  - eapply same_identity_trans; [exact Hm | apply Hk].
  - exact Hm.
Qed.

Lemma keeps_read_instance o : keeps_identity (read_instance o).
Proof.
  intros h. unfold read_instance.
  destruct (objs h !! o); apply same_identity_refl.
Qed.

Lemma keeps_read_dict d : keeps_identity (read_dict d).
Proof.
  intros h. unfold read_dict.
  destruct (dicts h !! d); apply same_identity_refl.
Qed.

Lemma keeps_write_dict d m : keeps_identity (write_dict d m).
Proof. intros h. now apply same_identity_objs. Qed.

(** A store that leaves the name and the level of the instance alone. *)
Lemma keeps_store self a :
  (∀ s, identity_of (object_setattr a s) = identity_of s) →
  keeps_identity (let! s := read_instance self in
                  write_instance self (object_setattr a s)).
Proof.
  intros Ha h. unfold bind, read_instance.
  destruct (objs h !! self) as [s|] eqn:Hs; [|apply same_identity_refl].
  intros o. cbn [snd write_instance objs].
  destruct (decide (self = o)) as [<-|Hne].
  - rewrite lookup_insert_eq, Hs. cbn. now rewrite Ha.
  - now rewrite lookup_insert_ne.
Qed.

Lemma keeps_set_mana self v : keeps_identity (__setattr__ self (Set_mana v)).
Proof.
  unfold __setattr__. destruct (v <? 0); [apply keeps_raise|].
  now apply keeps_store.
Qed.

Lemma keeps_set_spells self d : keeps_identity (__setattr__ self (Set_spells d)).
Proof. unfold __setattr__. now apply keeps_store. Qed.

Create HintDb keeps.
#[local] Hint Resolve keeps_ret keeps_raise keeps_read_instance keeps_read_dict
  keeps_write_dict keeps_set_mana keeps_set_spells : keeps.

Ltac keeps :=
  repeat first
    [ apply keeps_bind; [|intros ?]
    | solve [auto with keeps]
    | match goal with
      | |- keeps_identity (match ?x with _ => _ end) => destruct x
      | |- keeps_identity (if ?b then _ else _) => destruct b
      end ].

Lemma mutate_same_identity self m h : same_identity h (mutate self m h).
Proof.
  destruct m as [v|d|other|spell target|k v|k]; cbn [mutate].
  - apply keeps_set_mana.
  - apply keeps_set_spells.
  - revert h. change (keeps_identity (__iadd__ self other)).
    unfold __iadd__. destruct other; keeps.
  - revert h. change (keeps_identity (__call__ self spell target)).
    unfold __call__, dict_contains, dict_getitem. keeps.
  - revert h. change (keeps_identity (__setitem__ self k v)).
    unfold __setitem__, dict_setitem. keeps.
  - revert h. change (keeps_identity (__delitem__ self k)).
    unfold __delitem__, dict_delitem. keeps.
Qed.

Lemma hash_run builtin_hash h a :
  fst (__hash__ builtin_hash a h)
  = match identity_of <$> objs h !! a with
    | Some key => Ok (builtin_hash key)
    | None => Raise DanglingRef
    end.
Proof.
  unfold __hash__, bind, read_instance. now destruct (objs h !! a).
Qed.

(** C5: [a == b] is true exactly when the names and the levels agree; then
    the hashes agree.  The hash is the built-in hash of [(name, level)], so
    it is the same after any change to the mana or the spell book of any
    instance. *)
Theorem eq_and_hash_agree (builtin_hash : string * Z → Z) (h : heap)
    (a b : loc) (sa sb : Sorcerer) :
  objs h !! a = Some sa →
  objs h !! b = Some sb →
  (∃ r, __eq__ a (VSorcerer b) h = (Ok (Some r), h)
        ∧ (r = true ↔ name sa = name sb ∧ level sa = level sb)
        ∧ (r = true → __hash__ builtin_hash a h = __hash__ builtin_hash b h))
  ∧ __hash__ builtin_hash a h = (Ok (builtin_hash (name sa, level sa)), h)
  ∧ ∀ o m, fst (__hash__ builtin_hash a (mutate o m h))
           = fst (__hash__ builtin_hash a h).
Proof.
  intros Ha Hb.
  assert (∀ x sx, objs h !! x = Some sx →
            __hash__ builtin_hash x h = (Ok (builtin_hash (name sx, level sx)), h))
    as Hhash.
  { intros x sx Hx. unfold __hash__. now on_instance Hx. }
  assert (String.eqb (name sa) (name sb) && (level sa =? level sb) = true
          ↔ name sa = name sb ∧ level sa = level sb) as Hiff.
  { rewrite andb_true_iff, String.eqb_eq, Z.eqb_eq. reflexivity. }
  split; [|split].
  - eexists. split; [|split].
    + unfold __eq__. on_instance Ha. on_instance Hb. reflexivity.
    + exact Hiff.
    + intros Hr. apply Hiff in Hr as [Hn Hl].
      rewrite (Hhash _ _ Ha), (Hhash _ _ Hb), Hn, Hl. reflexivity.
  - apply Hhash, Ha.
  - intros o m. rewrite !hash_run. now rewrite (mutate_same_identity o m h a).
Qed.

Lemma eq_and_hash_agree_witness :
  ∃ r, __eq__ 1%positive (VSorcerer 1%positive) demo_heap = (Ok (Some r), demo_heap)
       ∧ (r = true ↔ "A" = "A" ∧ 5 = 5).
Proof.
  destruct (eq_and_hash_agree (λ key, snd key) demo_heap 1%positive 1%positive
              demo_instance demo_instance eq_refl eq_refl)
    as ((r & Hrun & Hiff & _) & _).
  exists r. split; assumption.
Defined.

(** ** Construction and the guards of [__setattr__] *)

(** C1: [Sorcerer(name, level, mana)] never raises and stores the level and
    the mana it is given, whatever they are: [Sorcerer("A", 0, 5)] has level
    0 and [Sorcerer("A", 1, -1)] has mana -1.  The same two values are
    refused when assigned to the attributes of an instance. *)
Theorem init_runs_no_guard (h : heap) (nm : string) (lv mn : Z) :
  (∃ c d h',
      __init__ nm lv mn None h = (Ok c, h')
      ∧ objs h' !! c = Some (mkSorcerer nm lv mn d))
  ∧ fst (level_of (__init__ "A" 0 5 None) empty_heap) = Ok 0
  ∧ fst (mana_of (__init__ "A" 1 (-1) None) empty_heap) = Ok (-1)
  ∧ (∀ c, __setattr__ c (Set_level 0) h
          = (Raise (ValueError "Sorcerer level must be >= 1"), h))
  ∧ (∀ c, __setattr__ c (Set_mana (-1)) h
          = (Raise (ValueError "Mana cannot be negative"), h)).
Proof.
  split; [|repeat split].
  do 3 eexists. split; [apply init_none_run|].
  cbn [objs]. apply lookup_insert_eq.
Qed.

(** C3: when [c.mana + n < 0], [c + n] raises nothing and returns an
    instance whose mana is the negative number [c.mana + n], as in
    [Sorcerer("A", 5, 20) + (-30)], whose mana is -10; [c += n] refuses the
    same sum. *)
Theorem add_builds_negative_mana (h : heap) (c : loc) (s : Sorcerer)
    (book : gmap string Z) (n : Z) :
  objs h !! c = Some s →
  dicts h !! spells s = Some book →
  mana s + n < 0 →
  (∃ c' d' h',
      __add__ c (VInt n) h = (Ok c', h')
      ∧ objs h' !! c' = Some (mkSorcerer (name s) (level s) (mana s + n) d'))
  ∧ __iadd__ c (VInt n) h = (Raise (ValueError "Mana cannot be negative"), h)
  ∧ fst (mana_of (let! a := __init__ "A" 5 20 None in __add__ a (VInt (-30)))
           empty_heap) = Ok (-10).
Proof.
  intros Hc Hd Hn. split; [|split; [|reflexivity]].
  - destruct (operator_run h c s book (mana s + n) Hc Hd)
      as (c' & d' & h' & Hrun & _ & Hobj & _).
    exists c', d', h'. unfold __add__. on_instance Hc. now split.
  - unfold __iadd__. on_instance Hc.
    now erewrite bind_raise by (apply setattr_mana_negative, Hn).
Qed.

Lemma add_builds_negative_mana_witness :
  ∃ c' d' h',
    __add__ 1%positive (VInt (-30)) demo_heap = (Ok c', h')
    ∧ objs h' !! c' = Some (mkSorcerer "A" 5 (-10) d').
Proof.
  assert (mana demo_instance + -30 < 0) as Hn by (cbn; lia).
  destruct (add_builds_negative_mana demo_heap 1%positive demo_instance
              {[ "fireball" := 3 ]} (-30) eq_refl eq_refl Hn)
    as ((c' & d' & h' & Hrun & Hobj) & _).
  exists c', d', h'. split; assumption.
Defined.

(** ** Ownership of the spell book *)

(** C2, as stated, fails: after [c = Sorcerer("A", 5, 20, m)] with
    [m = {"fireball": 3}], the instance does not hold ["iceball"]; once the
    caller has written [m["iceball"] = 7] it does; and [c["shield"] = 1]
    puts ["shield"] in [m]. *)
Lemma init_shares_caller_mapping :
  fst (sharing_scenario caller_heap) = Ok (false, true, true).
Proof. reflexivity. Qed.

(** C2, amended: the constructor stores a non-empty mapping as it is, so
    that a write to the mapping by the caller is read back through the
    instance and a write through the instance is read back from the mapping;
    in place of an empty mapping it stores a new empty dictionary, which
    shares nothing with the caller's. *)
Theorem init_stores_mapping_itself (h : heap) (nm : string) (lv mn : Z)
    (d : loc) (m : gmap string Z) :
  dicts h !! d = Some m →
  ∃ c book h1,
    __init__ nm lv mn (Some d) h = (Ok c, h1)
    ∧ (c ∉ dom (objs h))
    ∧ objs h1 !! c = Some (mkSorcerer nm lv mn book)
    ∧ (m ≠ ∅ →
         book = d
         ∧ dicts h1 = dicts h
         ∧ (∀ k v, fst ((do! dict_setitem d k v in __getitem__ c k) h1) = Ok v)
         ∧ (∀ k v, fst ((do! __setitem__ c k v in dict_getitem d k) h1) = Ok v))
    ∧ (m = ∅ →
         book ≠ d
         ∧ (book ∉ dom (dicts h))
         ∧ dicts h1 !! book = Some ∅
         ∧ (∀ k v, fst ((do! dict_setitem d k v in __contains__ c k) h1)
                   = Ok false)
         ∧ (∀ k v, fst ((do! __setitem__ c k v in dict_contains d k) h1)
                   = Ok false)).
Proof.
  intros Hd.
  set (c := fresh (dom (objs h))).
  destruct (decide (m = ∅)) as [->|Hm].
  - set (d' := fresh (dom (dicts h))).
    set (s := mkSorcerer nm lv mn d').
    set (h1 := Heap (<[c := s]> (objs h)) (<[d' := ∅]> (dicts h))).
    assert (d' ≠ d) as Hne.
    { intros E. pose proof (fresh_dict_not_live h) as F. fold d' in F.
      congruence. }
    assert (objs h1 !! c = Some s) as Hc by apply lookup_insert_eq.
    assert (dicts h1 !! d' = Some ∅) as Hd' by apply lookup_insert_eq.
    assert (dicts h1 !! d = Some ∅) as Hd1.
    { cbn [h1 dicts]. now rewrite lookup_insert_ne. }
    exists c, d', h1. split; [|split; [|split; [|split]]].
    + rewrite (init_empty_run _ _ _ _ _ Hd). apply init_none_run.
    + apply is_fresh.
    + exact Hc.
    + intros N. now contradiction N.
    + intros _. split; [exact Hne|]. split; [apply is_fresh|].
      split; [exact Hd'|]. split; intros k v.
      * erewrite bind_ok by (apply dict_setitem_run, Hd1).
        unfold __contains__.
        erewrite bind_ok by (apply read_instance_ok; cbn [objs]; exact Hc).
        cbn [spells s]. erewrite dict_contains_run
          by (cbn [dicts]; rewrite lookup_insert_ne by congruence; exact Hd').
        reflexivity.
      * unfold __setitem__ at 1.
        erewrite bind_ok; cycle 1.
        { on_instance Hc. cbn [spells s]. apply dict_setitem_run, Hd'. }
        erewrite dict_contains_run
          by (cbn [dicts]; rewrite lookup_insert_ne by congruence; exact Hd1).
        reflexivity.
  - set (s := mkSorcerer nm lv mn d).
    set (h1 := Heap (<[c := s]> (objs h)) (dicts h)).
    assert (objs h1 !! c = Some s) as Hc by apply lookup_insert_eq.
    exists c, d, h1. split; [|split; [|split; [|split]]].
    + apply (init_nonempty_run h nm lv mn d m Hd Hm).
    + apply is_fresh.
    + exact Hc.
    + intros _. split; [reflexivity|]. split; [reflexivity|].
      split; intros k v.
      * erewrite bind_ok by (apply dict_setitem_run; exact Hd).
        unfold __getitem__.
        erewrite bind_ok by (apply read_instance_ok; cbn [objs]; exact Hc).
        cbn [spells s]. erewrite dict_getitem_run
          by (cbn [dicts]; apply lookup_insert_eq).
        now rewrite lookup_insert_eq.
      * unfold __setitem__ at 1.
        erewrite bind_ok; cycle 1.
        { on_instance Hc. cbn [spells s]. apply dict_setitem_run. exact Hd. }
        erewrite dict_getitem_run by (cbn [dicts]; apply lookup_insert_eq).
        now rewrite lookup_insert_eq.
    + intros E. contradiction.
Qed.

Lemma init_stores_mapping_itself_witness :
  ∃ c h1,
    __init__ "A" 5 20 (Some 1%positive) caller_heap = (Ok c, h1)
    ∧ objs h1 !! c = Some (mkSorcerer "A" 5 20 1%positive).
Proof.
  destruct (init_stores_mapping_itself caller_heap "A" 5 20 1%positive
              {[ "fireball" := 3 ]} eq_refl)
    as (c & book & h1 & Hrun & _ & Hobj & Hshared & _).
  assert (({[ "fireball" := 3 ]} : gmap string Z) ≠ ∅) as Hm
    by (apply insert_non_empty).
  destruct (Hshared Hm) as (-> & _).
  exists c, h1. split; assumption.
Defined.

(** * Further properties of the class *)

(** ** Container protocol *)

Lemma contains_run h c s book k :
  objs h !! c = Some s → dicts h !! spells s = Some book →
  __contains__ c k h = (Ok (bool_decide (is_Some (book !! k))), h).
Proof.
  intros Hc Hd. unfold __contains__. on_instance Hc.
  now apply dict_contains_run.
Qed.

Lemma getitem_run h c s book k :
  objs h !! c = Some s → dicts h !! spells s = Some book →
  __getitem__ c k h
  = match book !! k with
    | Some v => (Ok v, h)
    | None => (Raise (KeyError k), h)
    end.
Proof.
  intros Hc Hd. unfold __getitem__. on_instance Hc.
  now apply dict_getitem_run.
Qed.

Lemma setitem_run h c s book k v :
  objs h !! c = Some s → dicts h !! spells s = Some book →
  __setitem__ c k v h
  = (Ok tt, Heap (objs h) (<[spells s := <[k := v]> book]> (dicts h))).
Proof.
  intros Hc Hd. unfold __setitem__. on_instance Hc.
  now apply dict_setitem_run.
Qed.

Lemma delitem_run h c s book k :
  objs h !! c = Some s → dicts h !! spells s = Some book →
  __delitem__ c k h
  = match book !! k with
    | Some _ => (Ok tt, Heap (objs h) (<[spells s := delete k book]> (dicts h)))
    | None => (Raise (KeyError k), h)
    end.
Proof.
  intros Hc Hd. unfold __delitem__, dict_delitem. on_instance Hc. on_dict Hd.
  now destruct (book !! k).
Qed.

Lemma len_run h c s book :
  objs h !! c = Some s → dicts h !! spells s = Some book →
  __len__ c h = (Ok (Z.of_nat (size book)), h).
Proof.
  intros Hc Hd. unfold __len__, dict_len. on_instance Hc. now on_dict Hd.
Qed.

(** X1: after [c[k] = v], for any integer [v], [c[k]] is [v] and [k in c]
    holds; every other key reads as before and no instance has changed. *)
Theorem setitem_then_getitem (h : heap) (c : loc) (s : Sorcerer)
    (book : gmap string Z) (k : string) (v : Z) :
  objs h !! c = Some s →
  dicts h !! spells s = Some book →
  ∃ h',
    __setitem__ c k v h = (Ok tt, h')
    ∧ __getitem__ c k h' = (Ok v, h')
    ∧ __contains__ c k h' = (Ok true, h')
    ∧ (∀ k', k' ≠ k →
         fst (__getitem__ c k' h') = fst (__getitem__ c k' h)
         ∧ fst (__contains__ c k' h') = fst (__contains__ c k' h))
    ∧ objs h' = objs h.
Proof.
  intros Hc Hd. eexists. split; [apply (setitem_run _ _ _ _ _ _ Hc Hd)|].
  set (h' := Heap _ _).
  assert (objs h' !! c = Some s) as Hc' by exact Hc.
  assert (dicts h' !! spells s = Some (<[k := v]> book)) as Hd'
    by apply lookup_insert_eq.
  repeat split.
  - rewrite (getitem_run _ _ _ _ _ Hc' Hd'). now rewrite lookup_insert_eq.
  - rewrite (contains_run _ _ _ _ _ Hc' Hd'), lookup_insert_eq.
    now rewrite bool_decide_eq_true_2 by eauto.
  - rewrite (getitem_run _ _ _ _ _ Hc' Hd'), (getitem_run _ _ _ _ _ Hc Hd).
    rewrite lookup_insert_ne by congruence. now destruct (book !! k').
  - rewrite (contains_run _ _ _ _ _ Hc' Hd'), (contains_run _ _ _ _ _ Hc Hd).
    now rewrite lookup_insert_ne by congruence.
Qed.

Lemma setitem_then_getitem_witness :
  ∃ h', __setitem__ 1%positive "curse" (-4) demo_heap = (Ok tt, h')
        ∧ __getitem__ 1%positive "curse" h' = (Ok (-4), h').
Proof.
  destruct (setitem_then_getitem demo_heap 1%positive demo_instance
              {[ "fireball" := 3 ]} "curse" (-4) eq_refl eq_refl)
    as (h' & Hset & Hget & _).
  exists h'. split; assumption.
Defined.

(** X2: [del c[k]] on a key the book holds removes it: afterwards [k in c]
    is false, [c[k]] raises [KeyError], [len(c)] is one less, and every other
    key reads as before. *)
Theorem delitem_removes_key (h : heap) (c : loc) (s : Sorcerer)
    (book : gmap string Z) (k : string) (v : Z) :
  objs h !! c = Some s →
  dicts h !! spells s = Some book →
  book !! k = Some v →
  ∃ h',
    __delitem__ c k h = (Ok tt, h')
    ∧ __contains__ c k h' = (Ok false, h')
    ∧ __getitem__ c k h' = (Raise (KeyError k), h')
    ∧ fst (__len__ c h) = Ok (Z.of_nat (size book))
    ∧ fst (__len__ c h') = Ok (Z.of_nat (size book) - 1)
    ∧ (∀ k', k' ≠ k → fst (__getitem__ c k' h') = fst (__getitem__ c k' h))
    ∧ objs h' = objs h.
Proof.
  intros Hc Hd Hk. eexists. split.
  { rewrite (delitem_run _ _ _ _ _ Hc Hd), Hk. reflexivity. }
  set (h' := Heap _ _).
  assert (objs h' !! c = Some s) as Hc' by exact Hc.
  assert (dicts h' !! spells s = Some (delete k book)) as Hd'
    by apply lookup_insert_eq.
  repeat split.
  - rewrite (contains_run _ _ _ _ _ Hc' Hd'), lookup_delete_eq.
    now rewrite bool_decide_eq_false_2 by (intros [? ?]; discriminate).
  - rewrite (getitem_run _ _ _ _ _ Hc' Hd'). now rewrite lookup_delete_eq.
  - now rewrite (len_run _ _ _ _ Hc Hd).
  - rewrite (len_run _ _ _ _ Hc' Hd'). cbn [fst]. f_equal.
    assert (size (delete k book) = Nat.pred (size book)) as E
      by (apply map_size_delete_Some; eauto).
    assert (size book ≠ 0%nat) as N.
    { intros Z0. apply map_size_empty_iff in Z0. subst book.
      rewrite lookup_empty in Hk. discriminate. }
    lia.
  - intros k' Hne.
    rewrite (getitem_run _ _ _ _ _ Hc' Hd'), (getitem_run _ _ _ _ _ Hc Hd).
    rewrite lookup_delete_ne by congruence. now destruct (book !! k').
Qed.

Lemma delitem_removes_key_witness :
  ∃ h', __delitem__ 1%positive "fireball" demo_heap = (Ok tt, h')
        ∧ __contains__ 1%positive "fireball" h' = (Ok false, h').
Proof.
  destruct (delitem_removes_key demo_heap 1%positive demo_instance
              {[ "fireball" := 3 ]} "fireball" 3 eq_refl eq_refl eq_refl)
    as (h' & Hdel & Hin & _).
  exists h'. split; assumption.
Defined.

(** X3: on a key the book does not hold, [c[k]] and [del c[k]] raise
    [KeyError] with that key and leave the heap as it was, and [k in c] is
    false. *)
Theorem missing_key_raises (h : heap) (c : loc) (s : Sorcerer)
    (book : gmap string Z) (k : string) :
  objs h !! c = Some s →
  dicts h !! spells s = Some book →
  book !! k = None →
  __getitem__ c k h = (Raise (KeyError k), h)
  ∧ __delitem__ c k h = (Raise (KeyError k), h)
  ∧ __contains__ c k h = (Ok false, h).
Proof.
  intros Hc Hd Hk. repeat split.
  - now rewrite (getitem_run _ _ _ _ _ Hc Hd), Hk.
  - now rewrite (delitem_run _ _ _ _ _ Hc Hd), Hk.
  - rewrite (contains_run _ _ _ _ _ Hc Hd), Hk.
    now rewrite bool_decide_eq_false_2 by (intros [? ?]; discriminate).
Qed.

Lemma missing_key_raises_witness :
  __delitem__ 1%positive "iceball" demo_heap = (Raise (KeyError "iceball"), demo_heap).
Proof.
  apply (missing_key_raises demo_heap 1%positive demo_instance
           {[ "fireball" := 3 ]} "iceball" eq_refl eq_refl eq_refl).
Defined.

(** X4: on an instance that holds the four attributes [__init__] sets and
    no other, [len(c)] is the number of entries of the spell book, 0 for an
    empty one, and the attribute [num_spells] reads as the same number;
    [c[k] = v] raises both by one when [k] is new and leaves both when [k]
    is already there. *)
Theorem len_counts_spells (h : heap) (c : loc) (s : Sorcerer)
    (book : gmap string Z) (k : string) (v : Z) :
  objs h !! c = Some s →
  dicts h !! spells s = Some book →
  __len__ c h = (Ok (Z.of_nat (size book)), h)
  ∧ getattr c "num_spells" h = (Ok (VInt (Z.of_nat (size book))), h)
  ∧ (book = ∅ → __len__ c h = (Ok 0, h))
  ∧ ∃ h',
      __setitem__ c k v h = (Ok tt, h')
      ∧ (book !! k = None →
         __len__ c h' = (Ok (Z.of_nat (size book) + 1), h')
         ∧ getattr c "num_spells" h'
           = (Ok (VInt (Z.of_nat (size book) + 1)), h'))
      ∧ (is_Some (book !! k) →
         __len__ c h' = (Ok (Z.of_nat (size book)), h')
         ∧ getattr c "num_spells" h' = (Ok (VInt (Z.of_nat (size book))), h')).
Proof.
  intros Hc Hd.
  assert (∀ h0 book0, objs h0 !! c = Some s → dicts h0 !! spells s = Some book0 →
            getattr c "num_spells" h0 = (Ok (VInt (Z.of_nat (size book0))), h0))
    as Hattr.
  { intros h0 book0 Hc0 Hd0. unfold getattr, __getattribute__.
    cbn [String.eqb Ascii.eqb Bool.eqb].
    erewrite bind_ok by (apply read_instance_ok, Hc0).
    cbn. unfold __getattr__. cbn [String.eqb Ascii.eqb Bool.eqb].
    erewrite bind_ok by (apply read_instance_ok, Hc0).
    unfold dict_len. erewrite bind_ok; [reflexivity|].
    now erewrite bind_ok by (apply read_dict_ok, Hd0). }
  split; [apply (len_run _ _ _ _ Hc Hd)|].
  split; [apply (Hattr _ _ Hc Hd)|].
  split.
  { intros ->. rewrite (len_run _ _ _ _ Hc Hd). now rewrite map_size_empty. }
  exists (Heap (objs h) (<[spells s := <[k := v]> book]> (dicts h))).
  set (h' := Heap _ _).
  assert (objs h' !! c = Some s) as Hc' by exact Hc.
  assert (dicts h' !! spells s = Some (<[k := v]> book)) as Hd'
    by apply lookup_insert_eq.
  split; [apply (setitem_run _ _ _ _ _ _ Hc Hd)|].
  split.
  - intros Hk.
    assert (Z.of_nat (size (<[k := v]> book)) = Z.of_nat (size book) + 1) as E.
    { rewrite map_size_insert_None by exact Hk. lia. }
    rewrite <- E. split; [apply (len_run _ _ _ _ Hc' Hd')|apply (Hattr _ _ Hc' Hd')].
  - intros Hk.
    assert (size (<[k := v]> book) = size book) as E
      by (now apply map_size_insert_Some).
    rewrite <- E. split; [apply (len_run _ _ _ _ Hc' Hd')|apply (Hattr _ _ Hc' Hd')].
Qed.

Lemma len_counts_spells_witness :
  ∃ h', __len__ 1%positive demo_heap = (Ok 1, demo_heap)
        ∧ __setitem__ 1%positive "shield" 1 demo_heap = (Ok tt, h')
        ∧ __len__ 1%positive h' = (Ok 2, h')
        ∧ getattr 1%positive "num_spells" h' = (Ok (VInt 2), h').
Proof.
  destruct (len_counts_spells demo_heap 1%positive demo_instance
              {[ "fireball" := 3 ]} "shield" 1 eq_refl eq_refl)
    as (Hlen & _ & _ & h' & Hset & Hnew & _).
  destruct (Hnew eq_refl) as (Hlen' & Hattr').
  assert (Z.of_nat (size ({[ "fireball" := 3 ]} : gmap string Z)) = 1) as E
    by (vm_compute; reflexivity).
  rewrite E in Hlen, Hlen', Hattr'.
  exists h'. repeat split; assumption.
Defined.

(** ** Attribute writes *)

Lemma getattr_field h c s attr v :
  objs h !! c = Some s →
  object_getattribute s (if String.eqb attr "hp" then "mana" else attr) = Some v →
  getattr c attr h = (Ok v, h).
Proof.
  intros Hc Hv. unfold getattr, __getattribute__. on_instance Hc.
  now rewrite Hv.
Qed.

(** X5: an assignment to [level] is refused below 1 and one to [mana] below
    0, with a [ValueError] and the heap as it was; any other level or mana is
    stored and read back, the mana also under the name [hp], and the other
    attributes of the instance stay. *)
Theorem setattr_guards_then_stores (h : heap) (c : loc) (s : Sorcerer) (v : Z) :
  objs h !! c = Some s →
  (v < 1 →
     __setattr__ c (Set_level v) h
     = (Raise (ValueError "Sorcerer level must be >= 1"), h))
  ∧ (1 ≤ v →
     ∃ h', __setattr__ c (Set_level v) h = (Ok tt, h')
           ∧ objs h' !! c = Some (mkSorcerer (name s) v (mana s) (spells s))
           ∧ getattr c "level" h' = (Ok (VInt v), h')
           ∧ dicts h' = dicts h)
  ∧ (v < 0 →
     __setattr__ c (Set_mana v) h
     = (Raise (ValueError "Mana cannot be negative"), h))
  ∧ (0 ≤ v →
     ∃ h', __setattr__ c (Set_mana v) h = (Ok tt, h')
           ∧ objs h' !! c = Some (mkSorcerer (name s) (level s) v (spells s))
           ∧ getattr c "mana" h' = (Ok (VInt v), h')
           ∧ getattr c "hp" h' = (Ok (VInt v), h')
           ∧ dicts h' = dicts h).
Proof.
  intros Hc. split; [|split; [|split]].
  - apply setattr_level_low.
  - intros Hv.
    set (h' := Heap (<[c := mkSorcerer (name s) v (mana s) (spells s)]> (objs h))
                    (dicts h)).
    assert (objs h' !! c = Some (mkSorcerer (name s) v (mana s) (spells s)))
      as Hc' by apply lookup_insert_eq.
    exists h'. split.
    { unfold __setattr__. destruct (Z.ltb_spec v 1); [lia|].
      now on_instance Hc. }
    split; [exact Hc'|]. split; [|reflexivity].
    now apply (getattr_field _ _ _ _ _ Hc').
  - apply setattr_mana_negative.
  - intros Hv.
    set (h' := Heap (<[c := mkSorcerer (name s) (level s) v (spells s)]> (objs h))
                    (dicts h)).
    assert (objs h' !! c = Some (mkSorcerer (name s) (level s) v (spells s)))
      as Hc' by apply lookup_insert_eq.
    exists h'. split; [apply (setattr_mana_ok _ _ _ _ Hc Hv)|].
    split; [exact Hc'|]. split; [|split; [|reflexivity]].
    + now apply (getattr_field _ _ _ _ _ Hc').
    + now apply (getattr_field _ _ _ _ _ Hc').
Qed.

Lemma setattr_guards_then_stores_witness :
  ∃ h', __setattr__ 1%positive (Set_mana 0) demo_heap = (Ok tt, h')
        ∧ getattr 1%positive "hp" h' = (Ok (VInt 0), h').
Proof.
  destruct (setattr_guards_then_stores demo_heap 1%positive demo_instance 0
              eq_refl) as (_ & _ & _ & Hok).
  destruct (Hok ltac:(reflexivity)) as (h' & Hset & _ & _ & Hhp & _).
  exists h'. split; assumption.
Defined.

(** ** The invariant of the guards *)

Lemma keeps_valid_ret {A} (a : A) : keeps_valid (ret a).
Proof. intros h Hh. exact Hh. Qed.

Lemma keeps_valid_raise {A} e : keeps_valid (@raise A e).
Proof. intros h Hh. exact Hh. Qed.

Lemma keeps_valid_bind {A B} (m : M A) (k : A → M B) :
  keeps_valid m → (∀ a, keeps_valid (k a)) → keeps_valid (bind m k).
Proof.
  intros Hm Hk h Hh. unfold bind. specialize (Hm h Hh).
  destruct (m h) as [[a|e] h1]; cbn [snd] in *.
  - now apply Hk.
  - exact Hm.
Qed.

Lemma keeps_valid_read_instance o : keeps_valid (read_instance o).
Proof.
  intros h Hh. unfold read_instance. now destruct (objs h !! o).
Qed.

Lemma keeps_valid_read_dict d : keeps_valid (read_dict d).
Proof.
  intros h Hh. unfold read_dict. now destruct (dicts h !! d).
Qed.

Lemma keeps_valid_write_dict d m : keeps_valid (write_dict d m).
Proof. intros h Hh. exact Hh. Qed.

Lemma keeps_valid_store self a :
  (∀ s, valid_instance s → valid_instance (object_setattr a s)) →
  keeps_valid (let! s := read_instance self in
               write_instance self (object_setattr a s)).
Proof.
  intros Ha h Hh. unfold bind, read_instance.
  destruct (objs h !! self) as [s|] eqn:Hs; [|exact Hh].
  intros o s'. cbn [snd write_instance objs].
  destruct (decide (self = o)) as [<-|Hne].
  - rewrite lookup_insert_eq. intros [= <-]. apply Ha, (Hh _ _ Hs).
  - rewrite lookup_insert_ne by exact Hne. apply Hh.
Qed.

Lemma keeps_valid_setattr self a : keeps_valid (__setattr__ self a).
Proof.
  destruct a as [v|v|v|v]; unfold __setattr__.
  - apply keeps_valid_store. intros s Hs. exact Hs.
  - destruct (Z.ltb_spec v 1); [apply keeps_valid_raise|].
    apply keeps_valid_store. intros s [_ Hm]. split; [assumption|exact Hm].
  - destruct (Z.ltb_spec v 0); [apply keeps_valid_raise|].
    apply keeps_valid_store. intros s [Hl _]. split; [exact Hl|assumption].
  - apply keeps_valid_store. intros s Hs. exact Hs.
Qed.

Create HintDb valid.
#[local] Hint Resolve keeps_valid_ret keeps_valid_raise keeps_valid_read_instance
  keeps_valid_read_dict keeps_valid_write_dict keeps_valid_setattr : valid.

Ltac keeps_valid :=
  repeat first
    [ apply keeps_valid_bind; [|intros ?]
    | solve [auto with valid]
    | match goal with
      | |- keeps_valid (match ?x with _ => _ end) => destruct x
      | |- keeps_valid (if ?b then _ else _) => destruct b
      end ].

(** X6: if every instance has a level of at least 1 and a mana of at least
    0, this is still so after any in-place change of any instance, accepted
    or refused: an attribute assignment, [+=], a call, an item assignment or
    deletion. *)
Theorem updates_keep_valid (h : heap) (c : loc) (u : update) :
  valid_heap h → valid_heap (apply_update c u h).
Proof.
  revert h. destruct u as [a|[v|d|other|spell target|k v|k]];
    cbn [apply_update mutate].
  - apply keeps_valid_setattr.
  - apply keeps_valid_setattr.
  - apply keeps_valid_setattr.
  - change (keeps_valid (__iadd__ c other)).
    unfold __iadd__. destruct other; keeps_valid.
  - change (keeps_valid (__call__ c spell target)).
    unfold __call__, dict_contains, dict_getitem. keeps_valid.
  - change (keeps_valid (__setitem__ c k v)).
    unfold __setitem__, dict_setitem. keeps_valid.
  - change (keeps_valid (__delitem__ c k)).
    unfold __delitem__, dict_delitem. keeps_valid.
Qed.

Lemma demo_heap_valid : valid_heap demo_heap.
Proof.
  intros o s Hs. unfold demo_heap in Hs. cbn [objs] in Hs.
  apply lookup_singleton_Some in Hs as [_ <-].
  split; cbn; lia.
Defined.

Lemma updates_keep_valid_witness :
  valid_heap (apply_update 1%positive (Mutation (Call "fireball" None)) demo_heap).
Proof. apply (updates_keep_valid demo_heap), demo_heap_valid. Defined.

(** ** The operators as a family *)

Lemma apply_operator_run h c s op n :
  objs h !! c = Some s →
  (op = Truediv → n ≠ 0) →
  apply_operator op c (VInt n) h
  = (let! d1 := dict_copy (spells s) in
     __init__ (name s) (level s) (operator_mana op (mana s) n) (Some d1)) h.
Proof.
  intros Hc Hn.
  destruct op; cbn [apply_operator operator_mana];
    unfold __radd__, __add__, __sub__, __mul__, __truediv__.
  - now on_instance Hc.
  - now on_instance Hc.
  - now on_instance Hc.
  - destruct (Z.eqb_spec n 0) as [E|_]; [now contradiction (Hn eq_refl)|].
    now on_instance Hc.
  - now on_instance Hc.
Qed.

Lemma eq_run h a b sa sb :
  objs h !! a = Some sa → objs h !! b = Some sb →
  __eq__ a (VSorcerer b) h
  = (Ok (Some (String.eqb (name sa) (name sb) && (level sa =? level sb))), h).
Proof. intros Ha Hb. unfold __eq__. on_instance Ha. now on_instance Hb. Qed.

Lemma lt_run h a b sa sb :
  objs h !! a = Some sa → objs h !! b = Some sb →
  __lt__ a (VSorcerer b) h
  = (Ok (Some ((level sa <? level sb)
               || ((level sa =? level sb) && (mana sa <? mana sb)))), h).
Proof. intros Ha Hb. unfold __lt__. on_instance Ha. now on_instance Hb. Qed.

(** X7: each of [c + n], [c - n], [c * n], [n + c] and, for [n] other than
    0, [c / n] returns an instance other than [c], with the mana the
    operator computes and the name and level of [c]; it compares equal to
    [c] and has the hash of [c]; [c] itself is as before. *)
Theorem operators_return_equal_instance (builtin_hash : string * Z → Z)
    (h : heap) (c : loc) (s : Sorcerer) (book : gmap string Z)
    (op : operator) (n : Z) :
  objs h !! c = Some s →
  dicts h !! spells s = Some book →
  (op = Truediv → n ≠ 0) →
  ∃ c' d' h',
    apply_operator op c (VInt n) h = (Ok c', h')
    ∧ c' ≠ c
    ∧ objs h' !! c'
      = Some (mkSorcerer (name s) (level s) (operator_mana op (mana s) n) d')
    ∧ objs h' !! c = Some s
    ∧ __eq__ c' (VSorcerer c) h' = (Ok (Some true), h')
    ∧ __hash__ builtin_hash c' h' = __hash__ builtin_hash c h'.
Proof.
  intros Hc Hd Hn.
  destruct (operator_run h c s book (operator_mana op (mana s) n) Hc Hd)
    as (c' & d' & h' & Hrun & Hnew & Hobj & _ & _ & Hold & _).
  exists c', d', h'.
  split; [now rewrite (apply_operator_run _ _ _ _ _ Hc Hn)|].
  split.
  { intros ->. apply Hnew, elem_of_dom. eauto. }
  split; [exact Hobj|]. split; [exact Hold|]. split.
  - rewrite (eq_run _ _ _ _ _ Hobj Hold). cbn [name level].
    now rewrite String.eqb_refl, Z.eqb_refl.
  - unfold __hash__. on_instance Hobj. now on_instance Hold.
Qed.

Lemma operators_return_equal_instance_witness :
  ∃ c' d' h',
    __mul__ 1%positive (VInt (-2)) demo_heap = (Ok c', h')
    ∧ objs h' !! c' = Some (mkSorcerer "A" 5 (-40) d')
    ∧ __eq__ c' (VSorcerer 1%positive) h' = (Ok (Some true), h').
Proof.
  assert (Mul = Truediv → -2 ≠ 0) as Hn by discriminate.
  destruct (operators_return_equal_instance (λ _, 0) demo_heap 1%positive
              demo_instance {[ "fireball" := 3 ]} Mul (-2) eq_refl eq_refl Hn)
    as (c' & d' & h' & Hrun & _ & Hobj & _ & Heq & _).
  exists c', d', h'. repeat split; assumption.
Defined.

(** X8: with an operand that is not an integer, each of the five operators
    and [+=] raises [ValueError] with its own message, on an instance or on
    [None], a string or a dictionary alike, and the heap is as it was. *)
Theorem operators_reject_non_int (h : heap) (c : loc) (op : operator)
    (other : val) :
  is_int other = false →
  apply_operator op c other h = (Raise (ValueError (operand_message op)), h)
  ∧ __iadd__ c other h = (Raise (ValueError "Can only add int to Sorcerer"), h).
Proof.
  intros Hint. destruct other; try discriminate; destruct op; now split.
Qed.

Lemma operators_reject_non_int_witness :
  __add__ 1%positive (VSorcerer 1%positive) demo_heap
  = (Raise (ValueError "Can only add mana to Sorcerer"), demo_heap).
Proof.
  apply (operators_reject_non_int demo_heap 1%positive Add (VSorcerer 1%positive)).
  reflexivity.
Defined.

(** ** Equality and ordering as relations *)

(** Reduces a goal on the outcome of a comparison to one on its boolean. *)
Ltac answer :=
  match goal with
  | |- (Ok (Some ?x), ?h) = (Ok (Some ?y), ?h) =>
      cut (x = y); [intros ->; reflexivity|]
  end.

(** X9: on instances, [==] is reflexive, symmetric and transitive; against
    a value that is not an instance it returns [NotImplemented]. *)
Theorem eq_is_equivalence (h : heap) (a b c : loc) (sa sb sc : Sorcerer) :
  objs h !! a = Some sa →
  objs h !! b = Some sb →
  objs h !! c = Some sc →
  __eq__ a (VSorcerer a) h = (Ok (Some true), h)
  ∧ __eq__ a (VSorcerer b) h = __eq__ b (VSorcerer a) h
  ∧ (__eq__ a (VSorcerer b) h = (Ok (Some true), h) →
     __eq__ b (VSorcerer c) h = (Ok (Some true), h) →
     __eq__ a (VSorcerer c) h = (Ok (Some true), h))
  ∧ (∀ z, __eq__ a (VInt z) h = (Ok None, h))
  ∧ (∀ t, __eq__ a (VStr t) h = (Ok None, h))
  ∧ __eq__ a VNone h = (Ok None, h).
Proof.
  intros Ha Hb Hc.
  rewrite (eq_run _ _ _ _ _ Ha Ha), (eq_run _ _ _ _ _ Ha Hb),
    (eq_run _ _ _ _ _ Hb Ha), (eq_run _ _ _ _ _ Hb Hc),
    (eq_run _ _ _ _ _ Ha Hc).
  repeat split.
  - now rewrite String.eqb_refl, Z.eqb_refl.
  - now rewrite (String.eqb_sym (name sa)), (Z.eqb_sym (level sa)).
  - intros [= Hab] [= Hbc]. answer.
    apply andb_true_iff in Hab as [N1 L1]. apply andb_true_iff in Hbc as [N2 L2].
    apply String.eqb_eq in N1, N2. apply Z.eqb_eq in L1, L2.
    apply andb_true_iff. split; [apply String.eqb_eq|apply Z.eqb_eq]; congruence.
Qed.

Lemma eq_is_equivalence_witness :
  __eq__ 1%positive (VSorcerer 1%positive) demo_heap = (Ok (Some true), demo_heap).
Proof.
  destruct (eq_is_equivalence demo_heap 1%positive 1%positive 1%positive
              demo_instance demo_instance demo_instance eq_refl eq_refl eq_refl)
    as (Hrefl & _).
  exact Hrefl.
Defined.

(** X10: on instances, [<] is the strict lexicographic order of
    [(level, mana)]: no instance is below itself, [a < b] and [b < c] give
    [a < c], and exactly one of [a < b], [b < a] and "same level and same
    mana" holds. *)
Theorem lt_is_strict_order (h : heap) (a b c : loc) (sa sb sc : Sorcerer) :
  objs h !! a = Some sa →
  objs h !! b = Some sb →
  objs h !! c = Some sc →
  ∃ ab ba,
    __lt__ a (VSorcerer b) h = (Ok (Some ab), h)
    ∧ __lt__ b (VSorcerer a) h = (Ok (Some ba), h)
    ∧ __lt__ a (VSorcerer a) h = (Ok (Some false), h)
    ∧ (ab = true ↔ level sa < level sb ∨ (level sa = level sb ∧ mana sa < mana sb))
    ∧ (ab = true → __lt__ b (VSorcerer c) h = (Ok (Some true), h) →
       __lt__ a (VSorcerer c) h = (Ok (Some true), h))
    ∧ (ab = true → ba = false)
    ∧ (ab = false → ba = false → level sa = level sb ∧ mana sa = mana sb)
    ∧ (level sa = level sb ∧ mana sa = mana sb → ab = false ∧ ba = false).
Proof.
  intros Ha Hb Hc.
  assert (∀ x y : Sorcerer,
            (level x <? level y) || ((level x =? level y) && (mana x <? mana y))
            = true
            ↔ level x < level y ∨ (level x = level y ∧ mana x < mana y)) as Hiff.
  { intros x y.
    rewrite orb_true_iff, andb_true_iff, !Z.ltb_lt, Z.eqb_eq. reflexivity. }
  assert (∀ x y : Sorcerer,
            (level x <? level y) || ((level x =? level y) && (mana x <? mana y))
            = false
            ↔ ¬ (level x < level y ∨ (level x = level y ∧ mana x < mana y)))
    as Hnot.
  { intros x y. rewrite <- Hiff. now destruct (_ || _). }
  do 2 eexists.
  split; [apply (lt_run _ _ _ _ _ Ha Hb)|].
  split; [apply (lt_run _ _ _ _ _ Hb Ha)|].
  rewrite (lt_run _ _ _ _ _ Ha Ha), (lt_run _ _ _ _ _ Hb Hc),
    (lt_run _ _ _ _ _ Ha Hc).
  split; [|split; [|split; [|split; [|split]]]].
  - answer. apply Hnot. lia.
  - apply Hiff.
  - intros Hab [= Hbc]. answer.
    apply Hiff in Hab. apply Hiff in Hbc. apply Hiff. lia.
  - intros Hab. apply Hiff in Hab. apply Hnot. lia.
  - intros Hab Hba. apply Hnot in Hab. apply Hnot in Hba. lia.
  - intros [Hl Hm]. split; apply Hnot; lia.
Qed.

Lemma lt_is_strict_order_witness :
  __lt__ 1%positive (VSorcerer 1%positive) demo_heap = (Ok (Some false), demo_heap).
Proof.
  destruct (lt_is_strict_order demo_heap 1%positive 1%positive 1%positive
              demo_instance demo_instance demo_instance eq_refl eq_refl eq_refl)
    as (ab & ba & _ & _ & Hirr & _).
  exact Hirr.
Defined.

(** X11: [==] looks at the name and the level and [<] at the level and the
    mana, so two instances are equal and one is below the other exactly when
    they share name and level and differ in mana; this is the case of [c] and
    [c + n] for positive [n]. *)
Theorem equal_instances_can_be_ordered (h : heap) (c : loc) (s : Sorcerer)
    (book : gmap string Z) (n : Z) :
  objs h !! c = Some s →
  dicts h !! spells s = Some book →
  0 < n →
  (∀ b sb, objs h !! b = Some sb →
     (__eq__ c (VSorcerer b) h = (Ok (Some true), h)
      ∧ __lt__ c (VSorcerer b) h = (Ok (Some true), h))
     ↔ (name s = name sb ∧ level s = level sb ∧ mana s < mana sb))
  ∧ ∃ c' h',
      __add__ c (VInt n) h = (Ok c', h')
      ∧ __eq__ c (VSorcerer c') h' = (Ok (Some true), h')
      ∧ __lt__ c (VSorcerer c') h' = (Ok (Some true), h').
Proof.
  intros Hc Hd Hn. split.
  - intros b sb Hb.
    rewrite (eq_run _ _ _ _ _ Hc Hb), (lt_run _ _ _ _ _ Hc Hb).
    split.
    + intros [[= He] [= Hl]].
      apply andb_true_iff in He as [N L].
      apply String.eqb_eq in N. apply Z.eqb_eq in L.
      apply orb_true_iff in Hl as [Hl|Hl].
      * apply Z.ltb_lt in Hl. lia.
      * apply andb_true_iff in Hl as [_ Hm]. apply Z.ltb_lt in Hm. auto.
    + intros (N & L & Hm). split; answer.
      * apply andb_true_iff. split; [now apply String.eqb_eq|now apply Z.eqb_eq].
      * apply orb_true_iff. right. apply andb_true_iff.
        split; [now apply Z.eqb_eq|now apply Z.ltb_lt].
  - destruct (operator_run h c s book (mana s + n) Hc Hd)
      as (c' & d' & h' & Hrun & _ & Hobj & _ & _ & Hold & _).
    exists c', h'. split; [|split].
    + unfold __add__. now on_instance Hc.
    + rewrite (eq_run _ _ _ _ _ Hold Hobj). cbn [name level].
      now rewrite String.eqb_refl, Z.eqb_refl.
    + rewrite (lt_run _ _ _ _ _ Hold Hobj). cbn [level mana].
      rewrite Z.eqb_refl. answer. apply orb_true_iff. right.
      apply Z.ltb_lt. lia.
Qed.

Lemma equal_instances_can_be_ordered_witness :
  ∃ c' h',
    __add__ 1%positive (VInt 1) demo_heap = (Ok c', h')
    ∧ __eq__ 1%positive (VSorcerer c') h' = (Ok (Some true), h')
    ∧ __lt__ 1%positive (VSorcerer c') h' = (Ok (Some true), h').
Proof.
  destruct (equal_instances_can_be_ordered demo_heap 1%positive demo_instance
              {[ "fireball" := 3 ]} 1 eq_refl eq_refl eq_refl)
    as (_ & Hex).
  exact Hex.
Defined.

(** ** Operations in sequence *)

Lemma iadd_run h c s n :
  objs h !! c = Some s → 0 ≤ mana s + n →
  __iadd__ c (VInt n) h
  = (Ok c, Heap (<[c := mkSorcerer (name s) (level s) (mana s + n) (spells s)]>
                   (objs h))
                (dicts h)).
Proof.
  intros Hc Hn. unfold __iadd__. on_instance Hc.
  now erewrite bind_ok by (apply (setattr_mana_ok _ _ _ _ Hc Hn)).
Qed.

(** X12: [(c + n) - n] is a third instance with the name, the level and the
    spells of [c] and the mana [max(0, c.mana)]: the mana of [c] when that is
    not negative, whatever the sign of [n]. *)
Theorem add_then_sub (h : heap) (c : loc) (s : Sorcerer)
    (book : gmap string Z) (n : Z) :
  objs h !! c = Some s →
  dicts h !! spells s = Some book →
  ∃ c1 h1 c2 d2 h2,
    __add__ c (VInt n) h = (Ok c1, h1)
    ∧ __sub__ c1 (VInt n) h1 = (Ok c2, h2)
    ∧ c1 ≠ c ∧ c2 ≠ c ∧ c2 ≠ c1
    ∧ objs h2 !! c2 = Some (mkSorcerer (name s) (level s) (Z.max 0 (mana s)) d2)
    ∧ dicts h2 !! d2 = Some book
    ∧ (0 ≤ mana s → Z.max 0 (mana s) = mana s)
    ∧ objs h2 !! c = Some s.
Proof.
  intros Hc Hd.
  destruct (operator_run h c s book (mana s + n) Hc Hd)
    as (c1 & d1 & h1 & Hrun1 & Hnew1 & Hobj1 & _ & Hbook1 & Hold1 & _).
  set (s1 := mkSorcerer (name s) (level s) (mana s + n) d1) in *.
  destruct (operator_run h1 c1 s1 book (Z.max 0 (mana s1 - n)) Hobj1 Hbook1)
    as (c2 & d2 & h2 & Hrun2 & Hnew2 & Hobj2 & _ & Hbook2 & Hold2 & _).
  exists c1, h1, c2, d2, h2.
  split; [unfold __add__; now on_instance Hc|].
  split; [unfold __sub__; now on_instance Hobj1|].
  assert (c1 ≠ c) as N1 by (intros ->; apply Hnew1, elem_of_dom; eauto).
  assert (c2 ≠ c) as N2 by (intros ->; apply Hnew2, elem_of_dom; eauto).
  assert (c2 ≠ c1) as N3 by (intros ->; apply Hnew2, elem_of_dom; eauto).
  repeat split; try assumption.
  - rewrite Hobj2. cbn [name level mana s1]. do 2 f_equal. lia.
  - lia.
  - destruct (copy_then_init_run h1 (spells s1) book (name s1) (level s1)
                (Z.max 0 (mana s1 - n)) Hbook1)
      as (d & h' & Hrun & Hobjs & _).
    rewrite Hrun2 in Hrun. injection Hrun as -> <-.
    rewrite Hobjs, lookup_insert_ne by congruence. exact Hold1.
Qed.

Lemma add_then_sub_witness :
  ∃ c1 h1 c2 d2 h2,
    __add__ 1%positive (VInt (-50)) demo_heap = (Ok c1, h1)
    ∧ __sub__ c1 (VInt (-50)) h1 = (Ok c2, h2)
    ∧ objs h2 !! c2 = Some (mkSorcerer "A" 5 20 d2).
Proof.
  destruct (add_then_sub demo_heap 1%positive demo_instance
              {[ "fireball" := 3 ]} (-50) eq_refl eq_refl)
    as (c1 & h1 & c2 & d2 & h2 & Hadd & Hsub & _ & _ & _ & Hobj & _).
  exists c1, h1, c2, d2, h2. repeat split; assumption.
Defined.

(** X13: when neither [c.mana] nor [c.mana + n] is negative, [c += n]
    followed by [c += -n] succeeds twice and gives back the heap it started
    from. *)
Theorem iadd_then_undo (h : heap) (c : loc) (s : Sorcerer) (n : Z) :
  objs h !! c = Some s →
  0 ≤ mana s →
  0 ≤ mana s + n →
  ∃ h1,
    __iadd__ c (VInt n) h = (Ok c, h1)
    ∧ getattr c "mana" h1 = (Ok (VInt (mana s + n)), h1)
    ∧ __iadd__ c (VInt (- n)) h1 = (Ok c, h).
Proof.
  intros Hc Hm Hn.
  set (s1 := mkSorcerer (name s) (level s) (mana s + n) (spells s)).
  set (h1 := Heap (<[c := s1]> (objs h)) (dicts h)).
  assert (objs h1 !! c = Some s1) as Hc1 by apply lookup_insert_eq.
  exists h1. split; [apply (iadd_run _ _ _ _ Hc Hn)|]. split.
  - now apply (getattr_field _ _ _ _ _ Hc1).
  - rewrite (iadd_run h1 c s1 (- n) Hc1) by (cbn [mana s1]; lia).
    f_equal. cbn [name level mana spells s1 h1 objs dicts].
    replace (mana s + n + - n) with (mana s) by lia.
    rewrite insert_insert_eq.
    destruct s as [nm lv mn sp]. cbn [name level mana spells].
    rewrite (insert_id _ _ _ Hc). now destruct h.
Qed.

Lemma iadd_then_undo_witness :
  ∃ h1, __iadd__ 1%positive (VInt (-20)) demo_heap = (Ok 1%positive, h1)
        ∧ __iadd__ 1%positive (VInt (- -20)) h1 = (Ok 1%positive, demo_heap).
Proof.
  assert (0 ≤ mana demo_instance) as Hm by (cbn; lia).
  assert (0 ≤ mana demo_instance + -20) as Hn by (cbn; lia).
  destruct (iadd_then_undo demo_heap 1%positive demo_instance (-20)
              eq_refl Hm Hn) as (h1 & H1 & _ & H2).
  exists h1. split; assumption.
Defined.

Lemma call_run h c s book spell target cost :
  objs h !! c = Some s →
  dicts h !! spells s = Some book →
  book !! spell = Some cost →
  __call__ c spell target h
  = if mana s <? cost then (Ok (lacks_mana (name s) spell), h)
    else (Ok (cast_text (name s) spell target cost (mana s - cost)),
          Heap (<[c := mkSorcerer (name s) (level s) (mana s - cost) (spells s)]>
                  (objs h))
               (dicts h)).
Proof.
  intros Hc Hd Hk. unfold __call__. on_instance Hc.
  erewrite bind_ok by (apply dict_contains_run, Hd).
  rewrite Hk, bool_decide_eq_true_2 by eauto. cbn [negb].
  erewrite bind_ok by (rewrite (dict_getitem_run _ _ _ _ Hd), Hk; reflexivity).
  destruct (Z.ltb_spec (mana s) cost); [reflexivity|].
  erewrite bind_ok by (apply (setattr_mana_ok _ _ _ _ Hc); lia).
  now erewrite bind_ok
    by (apply read_instance_ok; cbn [objs]; apply lookup_insert_eq).
Qed.

(** X14: [c[k] = v] puts no bound on [v], and the call that follows charges
    it as it is: with [v <= c.mana] the spell is cast and the mana becomes
    [c.mana - v], which for a negative [v] is more than before; with
    [v > c.mana] the call reports the lack of mana and changes nothing. *)
Theorem setitem_then_call (h : heap) (c : loc) (s : Sorcerer)
    (book : gmap string Z) (k : string) (v : Z) (target : option string) :
  objs h !! c = Some s →
  dicts h !! spells s = Some book →
  ∃ h1,
    __setitem__ c k v h = (Ok tt, h1)
    ∧ (v ≤ mana s →
       ∃ h2,
         __call__ c k target h1
         = (Ok (cast_text (name s) k target v (mana s - v)), h2)
         ∧ objs h2 !! c
           = Some (mkSorcerer (name s) (level s) (mana s - v) (spells s))
         ∧ (v < 0 → mana s < mana s - v))
    ∧ (mana s < v →
       __call__ c k target h1 = (Ok (lacks_mana (name s) k), h1)).
Proof.
  intros Hc Hd.
  set (h1 := Heap (objs h) (<[spells s := <[k := v]> book]> (dicts h))).
  assert (objs h1 !! c = Some s) as Hc1 by exact Hc.
  assert (dicts h1 !! spells s = Some (<[k := v]> book)) as Hd1
    by apply lookup_insert_eq.
  assert (<[k := v]> book !! k = Some v) as Hk by apply lookup_insert_eq.
  exists h1. split; [apply (setitem_run _ _ _ _ _ _ Hc Hd)|]. split.
  - intros Hv. eexists. split.
    + rewrite (call_run _ _ _ _ _ target _ Hc1 Hd1 Hk).
      destruct (Z.ltb_spec (mana s) v); [lia|reflexivity].
    + split; [apply lookup_insert_eq|lia].
  - intros Hv. rewrite (call_run _ _ _ _ _ target _ Hc1 Hd1 Hk).
    destruct (Z.ltb_spec (mana s) v); [reflexivity|lia].
Qed.

Lemma setitem_then_call_witness :
  ∃ h1 h2,
    __setitem__ 1%positive "drain" (-5) demo_heap = (Ok tt, h1)
    ∧ __call__ 1%positive "drain" None h1
      = (Ok "A casts 'drain' (cost -5 MP). Remaining mana: 25.", h2).
Proof.
  destruct (setitem_then_call demo_heap 1%positive demo_instance
              {[ "fireball" := 3 ]} "drain" (-5) None eq_refl eq_refl)
    as (h1 & Hset & Hcast & _).
  assert (-5 ≤ mana demo_instance) as Hv by (cbn; lia).
  destruct (Hcast Hv) as (h2 & Hcall & _).
  exists h1, h2. split; [assumption|]. rewrite Hcall. reflexivity.
Defined.

(** X15: the spell book of the instance an operator returns is its own: an
    item assigned through the result is not seen through [c], and an item
    assigned through [c] afterwards is not seen through the result. *)
Theorem operator_result_owns_its_book (h : heap) (c : loc) (s : Sorcerer)
    (book : gmap string Z) (op : operator) (n : Z) :
  objs h !! c = Some s →
  dicts h !! spells s = Some book →
  (op = Truediv → n ≠ 0) →
  ∃ c' h',
    apply_operator op c (VInt n) h = (Ok c', h')
    ∧ (∀ k v k',
         fst ((do! __setitem__ c' k v in __getitem__ c k') h')
         = fst (__getitem__ c k' h))
    ∧ (∀ k v k',
         fst ((do! __setitem__ c k v in __getitem__ c' k') h')
         = fst (__getitem__ c k' h)).
Proof.
  intros Hc Hd Hn.
  destruct (operator_run h c s book (operator_mana op (mana s) n) Hc Hd)
    as (c' & d' & h' & Hrun & _ & Hobj & Hfresh & Hbook & Hold & Hd').
  set (s' := mkSorcerer (name s) (level s) (operator_mana op (mana s) n) d') in *.
  assert (d' ≠ spells s) as Hne.
  { intros E. apply Hfresh. rewrite E. apply elem_of_dom. eauto. }
  exists c', h'.
  split; [now rewrite (apply_operator_run _ _ _ _ _ Hc Hn)|].
  split; intros k v k'; rewrite (getitem_run _ _ _ _ k' Hc Hd).
  - erewrite bind_ok by (apply (setitem_run h' c' s' book k v Hobj Hbook)).
    erewrite getitem_run;
      [|exact Hold
       |cbn [dicts spells s']; rewrite lookup_insert_ne by exact Hne; exact Hd'].
    now destruct (book !! k').
  - erewrite bind_ok by (apply (setitem_run h' c s book k v Hold Hd')).
    erewrite getitem_run;
      [|exact Hobj
       |cbn [dicts spells s']; rewrite lookup_insert_ne by congruence;
        exact Hbook].
    now destruct (book !! k').
Qed.

Lemma operator_result_owns_its_book_witness :
  ∃ c' h',
    __sub__ 1%positive (VInt 1) demo_heap = (Ok c', h')
    ∧ fst ((do! __setitem__ c' "fireball" 9 in __getitem__ 1%positive "fireball") h')
      = fst (__getitem__ 1%positive "fireball" demo_heap).
Proof.
  assert (Sub = Truediv → 1 ≠ 0) as Hn by discriminate.
  destruct (operator_result_owns_its_book demo_heap 1%positive demo_instance
              {[ "fireball" := 3 ]} Sub 1 eq_refl eq_refl Hn)
    as (c' & h' & Hrun & Hleft & _).
  exists c', h'. split; [assumption|apply Hleft].
Defined.

(** ** What a call leaves alone *)

Lemma read_dict_dangling h d :
  dicts h !! d = None → read_dict d h = (Raise DanglingRef, h).
Proof. intros E. unfold read_dict. now rewrite E. Qed.

(** X16: whatever its outcome, [c(spell)] changes no spell book, creates
    and removes no instance, leaves every other instance as it was, and
    leaves [c] its name, its level and its spell book. *)
Theorem call_changes_mana_only (h : heap) (c : loc) (spell : string)
    (target : option string) :
  dicts (snd (__call__ c spell target h)) = dicts h
  ∧ dom (objs (snd (__call__ c spell target h))) = dom (objs h)
  ∧ (∀ o, o ≠ c → objs (snd (__call__ c spell target h)) !! o = objs h !! o)
  ∧ (∀ s, objs h !! c = Some s →
       ∃ m, objs (snd (__call__ c spell target h)) !! c
            = Some (mkSorcerer (name s) (level s) m (spells s))).
Proof.
  assert (∀ s, objs h !! c = Some s →
            ∃ m, objs h !! c = Some (mkSorcerer (name s) (level s) m (spells s)))
    as Hsame.
  { intros s Hs. exists (mana s). now destruct s. }
  destruct (objs h !! c) as [s|] eqn:Hc.
  2:{ unfold __call__.
      erewrite bind_raise by (apply read_instance_dangling, Hc).
      cbn [snd]. rewrite Hc. repeat split; intros; discriminate. }
  destruct (dicts h !! spells s) as [book|] eqn:Hd.
  2:{ unfold __call__. on_instance Hc. unfold dict_contains.
      erewrite (bind_raise (bind _ _))
        by (erewrite bind_raise by (apply read_dict_dangling, Hd); reflexivity).
      cbn [snd]. rewrite Hc. repeat split. exact Hsame. }
  destruct (book !! spell) as [cost|] eqn:Hk.
  2:{ unfold __call__. on_instance Hc.
      erewrite bind_ok by (apply dict_contains_run, Hd).
      rewrite Hk, bool_decide_eq_false_2 by (intros [? ?]; discriminate).
      cbn [negb snd ret]. rewrite Hc. repeat split. exact Hsame. }
  rewrite (call_run _ _ _ _ _ target _ Hc Hd Hk).
  destruct (mana s <? cost); cbn [snd objs dicts].
  - rewrite Hc. repeat split. exact Hsame.
  - repeat split.
    + rewrite dom_insert_L.
      apply subseteq_union_1_L, singleton_subseteq_l, elem_of_dom. eauto.
    + intros o Ho. now rewrite lookup_insert_ne by congruence.
    + intros s0 [= <-]. exists (mana s - cost). apply lookup_insert_eq.
Qed.

(** ** Text and bytes *)

Lemma append_assoc (a b c : string) : (a +:+ b) +:+ c = a +:+ (b +:+ c).
Proof.
  induction a as [|x a IH]; [reflexivity|].
  change (String x ((a +:+ b) +:+ c) = String x (a +:+ (b +:+ c))).
  now rewrite IH.
Qed.

Lemma has_char_after (c : Ascii.ascii) (a r : string) :
  has_char c (a +:+ String c r) = true.
Proof.
  induction a as [|x a IH].
  - change (Ascii.eqb c c || has_char c r = true). now rewrite Ascii.eqb_refl.
  - change (Ascii.eqb c x || has_char c (a +:+ String c r) = true).
    rewrite IH. apply orb_true_r.
Qed.

(** A text is cut at its last occurrence of a byte in one way only. *)
Lemma cut_at_last (c : Ascii.ascii) (a a' p p' : string) :
  has_char c p = false → has_char c p' = false →
  a +:+ String c p = a' +:+ String c p' →
  a = a' ∧ p = p'.
Proof.
  intros Hp Hp'. revert a'.
  induction a as [|x a IH]; intros [|x' a'] E.
  - change (String c p = String c p') in E. injection E as ->. now split.
  - change (String c p = String x' (a' +:+ String c p')) in E.
    injection E as -> ->. rewrite has_char_after in Hp. discriminate.
  - change (String x (a +:+ String c p) = String c p') in E.
    injection E as -> <-. rewrite has_char_after in Hp'. discriminate.
  - change (String x (a +:+ String c p) = String x' (a' +:+ String c p')) in E.
    injection E as -> E. destruct (IH a' E) as [-> ->]. now split.
Qed.

Lemma pretty_N_go_no_pipe (x : N) (s : string) :
  has_char "|"%char s = false → has_char "|"%char (pretty_N_go x s) = false.
Proof.
  revert s. induction (N.lt_wf_0 x) as [x _ IH]. intros s Hs.
  destruct (decide (x = 0%N)) as [->|Hx]; [exact Hs|].
  rewrite pretty_N_go_step by lia. apply IH.
  - apply N.div_lt; lia.
  - cbn [has_char]. rewrite Hs.
    unfold pretty_N_char. now repeat case_match.
Qed.

Lemma pretty_Z_no_pipe (z : Z) : has_char "|"%char (pretty z) = false.
Proof.
  assert (∀ p : positive, has_char "|"%char (pretty (N.pos p)) = false) as Hpos.
  { intros p. unfold pretty, pretty_N. case_decide; [reflexivity|].
    now apply pretty_N_go_no_pipe. }
  destruct z as [|p|p]; [reflexivity|apply Hpos|].
  change (pretty (Z.neg p)) with ("-" +:+ pretty (N.pos p)).
  cbn. apply Hpos.
Qed.

(** X17: [bytes(c)] is the name, the level and the mana joined by [|], and
    it tells instances apart: two instances with the same bytes have the same
    name, level and mana, also when a name contains [|]. *)
Theorem bytes_determine_fields (h : heap) (a b : loc) (sa sb : Sorcerer) :
  objs h !! a = Some sa →
  objs h !! b = Some sb →
  __bytes__ a h
  = (Ok (name sa +:+ "|" +:+ pretty (level sa) +:+ "|" +:+ pretty (mana sa)), h)
  ∧ (fst (__bytes__ a h) = fst (__bytes__ b h) →
     name sa = name sb ∧ level sa = level sb ∧ mana sa = mana sb).
Proof.
  intros Ha Hb.
  assert (∀ x sx, objs h !! x = Some sx →
            __bytes__ x h
            = (Ok (name sx +:+ "|" +:+ pretty (level sx) +:+ "|"
                     +:+ pretty (mana sx)), h)) as Hrun.
  { intros x sx Hx. unfold __bytes__. now on_instance Hx. }
  split; [apply (Hrun _ _ Ha)|].
  rewrite (Hrun _ _ Ha), (Hrun _ _ Hb). cbn [fst]. intros [= E].
  assert (∀ x, "|" +:+ x = String "|"%char x) as Hbar by reflexivity.
  assert (∀ n l m, n +:+ String "|"%char (l +:+ String "|"%char m)
                   = (n +:+ String "|"%char l) +:+ String "|"%char m) as Hre.
  { intros n l m. now rewrite append_assoc. }
  rewrite !Hbar, !Hre in E.
  apply cut_at_last in E as [E Hm]; [|apply pretty_Z_no_pipe..].
  apply cut_at_last in E as [Hn Hl]; [|apply pretty_Z_no_pipe..].
  repeat split;
    [exact Hn | now apply (inj pretty) | now apply (inj pretty)].
Qed.

Lemma bytes_determine_fields_witness :
  __bytes__ 1%positive demo_heap = (Ok "A|5|20", demo_heap).
Proof.
  destruct (bytes_determine_fields demo_heap 1%positive 1%positive
              demo_instance demo_instance eq_refl eq_refl) as (Hrun & _).
  rewrite Hrun. reflexivity.
Defined.

Lemma str_run h c s book :
  objs h !! c = Some s → dicts h !! spells s = Some book →
  __str__ c h
  = (Ok ("Sorcerer " +:+ name s +:+ " (Lv " +:+ pretty (level s) +:+ ", Mana "
           +:+ pretty (mana s) +:+ ", " +:+ pretty (Z.of_nat (size book))
           +:+ " spells)"), h).
Proof.
  intros Hc Hd. unfold __str__. on_instance Hc.
  now erewrite bind_ok by (apply (len_run _ _ _ _ Hc Hd)).
Qed.

(** X18: [format(c, "short")] is built from the name and the level only, so
    instances that compare equal format alike and no change to the mana or
    the spell book of any instance alters it; [format(c, "mana")] shows the
    mana; under any other specification the result, or the exception, is
    that of the built-in [format] on [str(c)], which shows level, mana and
    the number of spells. *)
Theorem format_by_specification (builtin_format : string → string → result string)
    (h : heap) (a b : loc) (sa sb : Sorcerer) (book : gmap string Z) :
  objs h !! a = Some sa →
  objs h !! b = Some sb →
  dicts h !! spells sa = Some book →
  __format__ builtin_format a "short" h
  = (Ok (name sa +:+ " (Lv " +:+ pretty (level sa) +:+ ")"), h)
  ∧ __format__ builtin_format a "mana" h
    = (Ok (name sa +:+ ": " +:+ pretty (mana sa) +:+ " MP"), h)
  ∧ (__eq__ a (VSorcerer b) h = (Ok (Some true), h) →
     __format__ builtin_format a "short" h = __format__ builtin_format b "short" h)
  ∧ (∀ o m, fst (__format__ builtin_format a "short" (mutate o m h))
            = fst (__format__ builtin_format a "short" h))
  ∧ (∀ spec, spec ≠ "short" → spec ≠ "mana" →
       __format__ builtin_format a spec h
       = (builtin_format
            ("Sorcerer " +:+ name sa +:+ " (Lv " +:+ pretty (level sa)
               +:+ ", Mana " +:+ pretty (mana sa) +:+ ", "
               +:+ pretty (Z.of_nat (size book)) +:+ " spells)")
            spec, h)).
Proof.
  intros Ha Hb Hd.
  assert (∀ h0 x sx, objs h0 !! x = Some sx →
            __format__ builtin_format x "short" h0
            = (Ok (name sx +:+ " (Lv " +:+ pretty (level sx) +:+ ")"), h0))
    as Hshort.
  { intros h0 x sx Hx. unfold __format__. cbn [String.eqb Ascii.eqb Bool.eqb].
    now erewrite bind_ok by (apply read_instance_ok, Hx). }
  split; [apply (Hshort _ _ _ Ha)|]. split; [|split; [|split]].
  - unfold __format__. cbn [String.eqb Ascii.eqb Bool.eqb]. now on_instance Ha.
  - rewrite (eq_run _ _ _ _ _ Ha Hb). intros [= E].
    apply andb_true_iff in E as [N L].
    apply String.eqb_eq in N. apply Z.eqb_eq in L.
    rewrite (Hshort _ _ _ Ha), (Hshort _ _ _ Hb), N, L. reflexivity.
  - intros o m. pose proof (mutate_same_identity o m h a) as Hid.
    rewrite Ha in Hid. cbn [fmap option_fmap option_map] in Hid.
    destruct (objs (mutate o m h) !! a) as [s'|] eqn:Ha'; [|discriminate].
    injection Hid as N L.
    rewrite (Hshort _ _ _ Ha'), (Hshort _ _ _ Ha), N, L. reflexivity.
  - intros spec N1 N2. unfold __format__.
    apply String.eqb_neq in N1, N2. rewrite N1, N2.
    erewrite bind_ok by (apply (str_run _ _ _ _ Ha Hd)).
    now destruct (builtin_format _ spec).
Qed.

Lemma format_by_specification_witness :
  __format__ (λ text _, Ok text) 1%positive "short" demo_heap
  = (Ok "A (Lv 5)", demo_heap).
Proof.
  destruct (format_by_specification (λ text _, Ok text) demo_heap
              1%positive 1%positive demo_instance demo_instance
              {[ "fireball" := 3 ]} eq_refl eq_refl eq_refl) as (Hshort & _).
  rewrite Hshort. reflexivity.
Defined.

(** ** Two instances built from one mapping *)

(** X19: two instances built one after the other from the same mapping are
    two objects; when the mapping is not empty they hold the one spell book,
    so an item assigned through the first is read through the second; when
    it is empty each gets a dictionary of its own and nothing is shared. *)
Theorem instances_from_one_mapping (h : heap) (d : loc) (m : gmap string Z)
    (n1 n2 : string) (l1 m1 l2 m2 : Z) :
  dicts h !! d = Some m →
  ∃ a h1 b h2,
    __init__ n1 l1 m1 (Some d) h = (Ok a, h1)
    ∧ __init__ n2 l2 m2 (Some d) h1 = (Ok b, h2)
    ∧ a ≠ b
    ∧ (m ≠ ∅ →
       ∀ k v, fst ((do! __setitem__ a k v in __getitem__ b k) h2) = Ok v)
    ∧ (m = ∅ →
       ∀ k v, fst ((do! __setitem__ a k v in __contains__ b k) h2) = Ok false).
Proof.
  intros Hd.
  set (a := fresh (dom (objs h))).
  destruct (decide (m = ∅)) as [->|Hm].
  - set (d1 := fresh (dom (dicts h))).
    set (s1 := mkSorcerer n1 l1 m1 d1).
    set (h1 := Heap (<[a := s1]> (objs h)) (<[d1 := ∅]> (dicts h))).
    assert (d1 ≠ d) as Hd1.
    { intros E. pose proof (fresh_dict_not_live h) as F. fold d1 in F.
      congruence. }
    assert (dicts h1 !! d = Some ∅) as Hdh1.
    { cbn [h1 dicts]. now rewrite lookup_insert_ne. }
    set (b := fresh (dom (objs h1))).
    set (d2 := fresh (dom (dicts h1))).
    set (s2 := mkSorcerer n2 l2 m2 d2).
    set (h2 := Heap (<[b := s2]> (objs h1)) (<[d2 := ∅]> (dicts h1))).
    assert (b ≠ a) as Hab.
    { intros E. pose proof (fresh_instance_not_live h1) as F. fold b in F.
      rewrite E in F. cbn [h1 objs] in F. rewrite lookup_insert_eq in F.
      discriminate. }
    assert (d2 ≠ d1) as Hd2.
    { intros E. pose proof (fresh_dict_not_live h1) as F. fold d2 in F.
      rewrite E in F. cbn [h1 dicts] in F. rewrite lookup_insert_eq in F.
      discriminate. }
    exists a, h1, b, h2. split; [|split; [|split; [|split]]].
    + rewrite (init_empty_run _ _ _ _ _ Hd). apply init_none_run.
    + rewrite (init_empty_run _ _ _ _ _ Hdh1). apply init_none_run.
    + congruence.
    + intros N. now contradiction N.
    + intros _ k v.
      assert (objs h2 !! a = Some s1) as Ha.
      { cbn [h2 h1 objs]. rewrite lookup_insert_ne by exact Hab.
        apply lookup_insert_eq. }
      assert (dicts h2 !! spells s1 = Some ∅) as Hbook.
      { cbn [h2 h1 dicts spells s1]. rewrite lookup_insert_ne by exact Hd2.
        apply lookup_insert_eq. }
      erewrite bind_ok by (apply (setitem_run _ _ _ _ k v Ha Hbook)).
      erewrite contains_run;
        [|cbn [objs h2]; apply lookup_insert_eq
         |cbn [dicts spells s1 s2 h2]; rewrite lookup_insert_ne by congruence;
          apply lookup_insert_eq].
      now rewrite lookup_empty.
  - set (s1 := mkSorcerer n1 l1 m1 d).
    set (h1 := Heap (<[a := s1]> (objs h)) (dicts h)).
    set (b := fresh (dom (objs h1))).
    set (s2 := mkSorcerer n2 l2 m2 d).
    set (h2 := Heap (<[b := s2]> (objs h1)) (dicts h1)).
    assert (b ≠ a) as Hab.
    { intros E. pose proof (fresh_instance_not_live h1) as F. fold b in F.
      rewrite E in F. cbn [h1 objs] in F. rewrite lookup_insert_eq in F.
      discriminate. }
    exists a, h1, b, h2. split; [|split; [|split; [|split]]].
    + apply (init_nonempty_run h n1 l1 m1 d m Hd Hm).
    + apply (init_nonempty_run h1 n2 l2 m2 d m Hd Hm).
    + congruence.
    + intros _ k v.
      assert (objs h2 !! a = Some s1) as Ha.
      { cbn [h2 h1 objs]. rewrite lookup_insert_ne by exact Hab.
        apply lookup_insert_eq. }
      assert (dicts h2 !! spells s1 = Some m) as Hbook by exact Hd.
      erewrite bind_ok by (apply (setitem_run _ _ _ _ k v Ha Hbook)).
      erewrite getitem_run;
        [|cbn [objs h2]; apply lookup_insert_eq
         |cbn [dicts spells s1 s2]; apply lookup_insert_eq].
      now rewrite lookup_insert_eq.
    + intros E. contradiction.
Qed.

Lemma instances_from_one_mapping_witness :
  ∃ a h1 b h2,
    __init__ "A" 5 20 (Some 1%positive) caller_heap = (Ok a, h1)
    ∧ __init__ "B" 7 30 (Some 1%positive) h1 = (Ok b, h2)
    ∧ fst ((do! __setitem__ a "haste" 3 in __getitem__ b "haste") h2) = Ok 3.
Proof.
  destruct (instances_from_one_mapping caller_heap 1%positive
              {[ "fireball" := 3 ]} "A" "B" 5 20 7 30 eq_refl)
    as (a & h1 & b & h2 & Ha & Hb & _ & Hshare & _).
  assert (({[ "fireball" := 3 ]} : gmap string Z) ≠ ∅) as Hm
    by (apply insert_non_empty).
  exists a, h1, b, h2. split; [assumption|]. split; [assumption|].
  apply (Hshare Hm).
Defined.
